(** * Sample User API: a shallow embedding of the two FastAPI variants

    The repository holds two variants of one small user service:
    - [Main]   : main.py, with its shapes in models.py and its store in
                 database.py;
    - [Sample] : sample_fastapi.py, self-contained.

    Handlers are embedded as computations in a state-and-exception monad over
    a [World] made of the global [fake_users_db] and the wall clock.  Python
    dictionaries are association lists in insertion order, pydantic models are
    records together with a [BaseModel] instance giving their keyword
    constructor and their attribute table. *)

From Stdlib Require Import String Ascii List Bool Arith Lia DecimalString.
Import ListNotations.
Open Scope string_scope.

Set Implicit Arguments.
Set Warnings "-register-all".

(** ** Python strings *)

(** [str.startswith]. *)
Fixpoint startswith (s p : string) {struct p} : bool :=
  match p with
  | EmptyString => true
  | String c p' =>
      match s with
      | EmptyString => false
      | String d s' => Ascii.eqb d c && startswith s' p'
      end
  end.

(** The decimal rendering an f-string gives to a non-negative [int]. *)
Definition str_of_int (n : nat) : string :=
  NilEmpty.string_of_uint (Nat.to_uint n).

(** ** Python dictionaries, in insertion order *)

Section Dict.
Variable V : Type.

Definition dict := list (string * V).

(** [d.get(k)] *)
Fixpoint dict_get (k : string) (d : dict) : option V :=
  match d with
  | [] => None
  | (k', v) :: d' => if String.eqb k' k then Some v else dict_get k d'
  end.

(** [k in d] *)
Definition dict_in (k : string) (d : dict) : bool :=
  match dict_get k d with Some _ => true | None => false end.

(** [d[k] = v]: an existing key keeps its position, a new key goes last. *)
Fixpoint dict_set (k : string) (v : V) (d : dict) : dict :=
  match d with
  | [] => [(k, v)]
  | (k', v') :: d' =>
      if String.eqb k' k then (k, v) :: d' else (k', v') :: dict_set k v d'
  end.

(** [d.values()], [d.items()], [len(d)] *)
Definition dict_values (d : dict) : list V := map snd d.
Definition dict_items (d : dict) : list (string * V) := d.
Definition len (d : dict) : nat := length d.

(** Truthiness of a dictionary: [not d] holds of the empty one. *)
Definition dict_falsy (d : dict) : bool :=
  match d with [] => true | _ => false end.
End Dict.

Arguments dict_get {V} k d.
Arguments dict_in {V} k d.
Arguments dict_set {V} k v d.
Arguments dict_values {V} d.
Arguments dict_items {V} d.
Arguments len {V} d.
Arguments dict_falsy {V} d.

(** ** Values on the wire *)

Inductive value : Type :=
| VBool (b : bool)
| VInt (n : nat)
| VStr (s : string)
| VList (l : list value)
| VDict (d : list (string * value)).

(** [has_field k v]: some object inside [v] has a field named [k]. *)
Fixpoint has_field (k : string) (v : value) : bool :=
  match v with
  | VList l => existsb (has_field k) l
  | VDict d =>
      existsb (fun kv => match kv with
                         | (k', v') => String.eqb k' k || has_field k v'
                         end) d
  | _ => false
  end.

(** A stored user record: a dictionary of strings. *)
Definition record := dict string.
Definition store := dict record.

Definition json_of_record (r : dict string) : value :=
  VDict (map (fun kv => (fst kv, VStr (snd kv))) r).

(** ** Exceptions and outcomes *)

Inductive exn : Type :=
| HTTPException (status_code : nat) (detail : string)
| KeyError (key : string)
| AttributeError (cls attr : string)
| ValidationError (cls field : string).

Inductive result (A : Type) : Type :=
| Ok (a : A)
| Raise (e : exn).

Arguments Ok {A} a.
Arguments Raise {A} e.

(** The HTTP status the framework answers with: 200 for a returned value, the
    carried status for an [HTTPException], 500 for any other exception. *)
Definition status_of {A} (r : result A) : nat :=
  match r with
  | Ok _ => 200
  | Raise (HTTPException c _) => c
  | Raise _ => 500
  end.

Definition is_ok {A} (r : result A) : bool :=
  match r with Ok _ => true | Raise _ => false end.

Definition result_map {A B} (f : A -> B) (r : result A) : result B :=
  match r with Ok a => Ok (f a) | Raise e => Raise e end.

(** ** The world: the global store and the clock *)

(** A [datetime] value, through the two renderings the handlers use:
    [.isoformat()] and the text an f-string gives to [.timestamp()]. *)
Record datetime : Type := mkDatetime {
  isoformat : string;
  timestamp : string
}.

Record World : Type := mkWorld {
  fake_users_db : store;
  wall_clock : nat -> datetime;   (* the k-th reading of the clock *)
  clock_reads : nat               (* readings taken so far *)
}.

Definition set_db (db : store) (w : World) : World :=
  mkWorld db (wall_clock w) (clock_reads w).

(** ** The handler monad: state, with exceptions that keep the state *)

Definition M (A : Type) : Type := World -> result A * World.

Definition ret {A} (a : A) : M A := fun w => (Ok a, w).

Definition raise {A} (e : exn) : M A := fun w => (Raise e, w).

Definition bind {A B} (m : M A) (k : A -> M B) : M B :=
  fun w =>
    match m w with
    | (Ok a, w') => k a w'
    | (Raise e, w') => (Raise e, w')
    end.

Definition lift {A} (r : result A) : M A := fun w => (r, w).

Declare Scope handler_scope.
Delimit Scope handler_scope with handler.
Notation "x <- m ;; k" := (bind m (fun x => k))
  (at level 61, m at next level, right associativity) : handler_scope.
Notation "m ;;; k" := (bind m (fun _ => k))
  (at level 61, right associativity) : handler_scope.
Open Scope handler_scope.

(** Reading the global store. *)
Definition read_db : M store := fun w => (Ok (fake_users_db w), w).

(** [fake_users_db[k] = r] *)
Definition store_setitem (k : string) (r : record) : M unit :=
  fun w => (Ok tt, set_db (dict_set k r (fake_users_db w)) w).

(** [datetime.now()]: takes the next reading of the clock. *)
Definition datetime_now : M datetime :=
  fun w => (Ok (wall_clock w (clock_reads w)),
            mkWorld (fake_users_db w) (wall_clock w) (S (clock_reads w))).

(** [d[k]]: raises [KeyError] on a missing key. *)
Definition subscript {V} (d : dict V) (k : string) : M V :=
  match dict_get k d with
  | Some v => ret v
  | None => raise (KeyError k)
  end.

(** ** pydantic models *)

(** A model class: its name, the keyword constructor (every declared field is
    required, keywords that are not declared fields are ignored) and the
    attribute table of an instance. *)
Class BaseModel (T : Type) : Type := {
  model_name : string;
  model_init : dict string -> result T;
  model_attrs : T -> dict string
}.

(** [obj.attr]: raises [AttributeError] when [attr] is not a field. *)
Definition getattr {T} `{BaseModel T} (obj : T) (attr : string) : M string :=
  match dict_get attr (model_attrs obj) with
  | Some v => ret v
  | None => raise (AttributeError model_name attr)
  end.

(** A required field of a keyword constructor. *)
Definition required (cls : string) (kwargs : dict string) (field : string)
  : result string :=
  match dict_get field kwargs with
  | Some v => Ok v
  | None => Raise (ValidationError cls field)
  end.

Definition rbind {A B} (r : result A) (k : A -> result B) : result B :=
  match r with Ok a => k a | Raise e => Raise e end.

(** A list comprehension whose element expression may raise. *)
Fixpoint comprehension {A B} (f : A -> M B) (l : list A) : M (list B) :=
  match l with
  | [] => ret []
  | a :: l' => b <- f a ;; bs <- comprehension f l' ;; ret (b :: bs)
  end.

(** * Variant 1: main.py, models.py, database.py *)

Module Main.

(** ** models.py *)

Record UserResponse : Type := mkUserResponse {
  ur_id : string;
  ur_name : string;
  ur_mobile : string;
  ur_created_at : string
}.

Record LoginRequest : Type := mkLoginRequest {
  lr_mailId : string;
  lr_password : string
}.

Record LoginResponse : Type := mkLoginResponse {
  success : bool;
  token : string;
  refreshToken : string;
  expiresIn : nat;
  user : dict string
}.

Record CreateUserRequest : Type := mkCreateUserRequest {
  cu_mailId : string;
  cu_password : string;
  cu_name : string;
  cu_mobile : string
}.

Record RefreshTokenRequest : Type := mkRefreshTokenRequest {
  rt_refresh_token : string
}.

#[export] Instance UserResponse_model : BaseModel UserResponse := {
  model_name := "UserResponse";
  model_init kw :=
    rbind (required "UserResponse" kw "id") (fun a =>
    rbind (required "UserResponse" kw "name") (fun b =>
    rbind (required "UserResponse" kw "mobile") (fun c =>
    rbind (required "UserResponse" kw "created_at") (fun d =>
    Ok (mkUserResponse a b c d)))));
  model_attrs o :=
    [("id", ur_id o); ("name", ur_name o); ("mobile", ur_mobile o);
     ("created_at", ur_created_at o)]
}.

#[export] Instance LoginRequest_model : BaseModel LoginRequest := {
  model_name := "LoginRequest";
  model_init kw :=
    rbind (required "LoginRequest" kw "mailId") (fun a =>
    rbind (required "LoginRequest" kw "password") (fun b =>
    Ok (mkLoginRequest a b)));
  model_attrs o := [("mailId", lr_mailId o); ("password", lr_password o)]
}.

#[export] Instance CreateUserRequest_model : BaseModel CreateUserRequest := {
  model_name := "CreateUserRequest";
  model_init kw :=
    rbind (required "CreateUserRequest" kw "mailId") (fun a =>
    rbind (required "CreateUserRequest" kw "password") (fun b =>
    rbind (required "CreateUserRequest" kw "name") (fun c =>
    rbind (required "CreateUserRequest" kw "mobile") (fun d =>
    Ok (mkCreateUserRequest a b c d)))));
  model_attrs o :=
    [("mailId", cu_mailId o); ("password", cu_password o);
     ("name", cu_name o); ("mobile", cu_mobile o)]
}.

#[export] Instance RefreshTokenRequest_model : BaseModel RefreshTokenRequest := {
  model_name := "RefreshTokenRequest";
  model_init kw :=
    rbind (required "RefreshTokenRequest" kw "refresh_token") (fun a =>
    Ok (mkRefreshTokenRequest a));
  model_attrs o := [("refresh_token", rt_refresh_token o)]
}.

(** ** database.py: the store at process start *)

Definition seed_db : store :=
  [("user1",
    [("id", "user1"); ("mail", "john@example.com"); ("name", "John Doe");
     ("phone", "+1-234-567-8900"); ("password", "hashed_password_123");
     ("created_at", "2024-01-01T10:00:00Z")]);
   ("user2",
    [("id", "user2"); ("mail", "jane@example.com"); ("name", "Jane Smith");
     ("phone", "+1-987-654-3210"); ("password", "hashed_password_456");
     ("created_at", "2024-01-02T10:00:00Z")])].

(** ** main.py: health check endpoints *)

Definition root : M (dict value) :=
  ret [("message", VStr "User API is running");
       ("version", VStr "1.0.0");
       ("endpoints",
        VList [VStr "GET /users/{id}"; VStr "POST /users";
               VStr "POST /login"; VStr "GET /health"])].

Definition health_check : M (dict value) :=
  ret [("status", VStr "healthy")].

Definition get_status : M (dict value) :=
  now <- datetime_now ;;
  db <- read_db ;;
  ret [("status", VStr "running");
       ("version", VStr "1.0.0");
       ("timestamp", VStr (isoformat now ++ "Z"));
       ("users_count", VInt (len db))].

(** ** main.py: user endpoints *)

(** The [UserResponse(id=user["id"], gmail=user["gmail"], ...)] call that
    [get_user], [list_users] and [create_user] each make: the keyword
    arguments are evaluated left to right, then the constructor runs. *)
Definition user_response_of (user : record) : M UserResponse :=
  a_id <- subscript user "id" ;;
  a_gmail <- subscript user "gmail" ;;
  a_name <- subscript user "name" ;;
  a_phone <- subscript user "phone" ;;
  a_created_at <- subscript user "created_at" ;;
  lift (model_init [("id", a_id); ("gmail", a_gmail); ("name", a_name);
                    ("phone", a_phone); ("created_at", a_created_at)]).

Definition get_user (user_id : string) : M UserResponse :=
  db <- read_db ;;
  if negb (dict_in user_id db) then
    raise (HTTPException 404 "User not found")
  else
    user <- subscript db user_id ;;
    user_response_of user.

Definition list_users : M (list UserResponse) :=
  db <- read_db ;;
  comprehension user_response_of (dict_values db).

Definition create_user (request : CreateUserRequest) : M UserResponse :=
  db <- read_db ;;
  let new_user_id := "user" ++ str_of_int (len db + 1) in
  r_gmail <- getattr request "gmail" ;;
  r_password <- getattr request "password" ;;
  r_name <- getattr request "name" ;;
  r_phone <- getattr request "phone" ;;
  now <- datetime_now ;;
  let new_user : record :=
    [("id", new_user_id); ("gmail", r_gmail); ("password", r_password);
     ("name", r_name); ("phone", r_phone);
     ("created_at", isoformat now ++ "Z")] in
  store_setitem new_user_id new_user ;;;
  user_response_of new_user.

(** ** main.py: authentication endpoints *)

(** The [for uid, u in fake_users_db.items()] loop of [login]: the first
    record whose ["gmail"] equals [request.gmail], if any. *)
Fixpoint login_scan (request : LoginRequest) (items : list (string * record))
  : M (option (string * record)) :=
  match items with
  | [] => ret None
  | (uid, u) :: rest =>
      u_gmail <- subscript u "gmail" ;;
      r_gmail <- getattr request "gmail" ;;
      if String.eqb u_gmail r_gmail then ret (Some (uid, u))
      else login_scan request rest
  end.

Definition login (request : LoginRequest) : M LoginResponse :=
  db <- read_db ;;
  found <- login_scan request (dict_items db) ;;
  match found with
  | None => raise (HTTPException 401 "Invalid credentials")
  | Some (user_id, user) =>
      if dict_falsy user then
        raise (HTTPException 401 "Invalid credentials")
      else
        u_password <- subscript user "password" ;;
        r_password <- getattr request "password" ;;
        if negb (String.eqb u_password r_password) then
          raise (HTTPException 401 "Invalid credentials")
        else
          now1 <- datetime_now ;;
          let token := "token_jwt_" ++ user_id ++ "_" ++ timestamp now1 in
          now2 <- datetime_now ;;
          let refresh_token :=
            "refresh_" ++ user_id ++ "_" ++ timestamp now2 in
          u_id <- subscript user "id" ;;
          u_gmail <- subscript user "gmail" ;;
          u_name <- subscript user "name" ;;
          ret (mkLoginResponse true token refresh_token 3600
                 [("id", u_id); ("gmail", u_gmail); ("name", u_name)])
  end.

Definition refresh_token (request : RefreshTokenRequest) : M (dict value) :=
  r_refresh_token <- getattr request "refresh_token" ;;
  if negb (startswith r_refresh_token "refresh_") then
    raise (HTTPException 401 "Invalid refresh token")
  else
    now1 <- datetime_now ;;
    let new_token := "token_jwt_refreshed_" ++ timestamp now1 in
    now2 <- datetime_now ;;
    let new_refresh_token := "refresh_refreshed_" ++ timestamp now2 in
    ret [("token", VStr new_token);
         ("refreshToken", VStr new_refresh_token);
         ("expiresIn", VInt 3600)].

(** ** main.py: profile endpoints *)

Definition get_profile (token : string) : M (dict value) :=
  if negb (startswith token "token_") then
    raise (HTTPException 401 "Invalid token")
  else
    db <- read_db ;;
    user <- subscript db "user1" ;;
    u_id <- subscript user "id" ;;
    u_gmail <- subscript user "gmail" ;;
    u_name <- subscript user "name" ;;
    u_phone <- subscript user "phone" ;;
    u_created_at <- subscript user "created_at" ;;
    now <- datetime_now ;;
    ret [("id", VStr u_id); ("gmail", VStr u_gmail); ("name", VStr u_name);
         ("phone", VStr u_phone); ("created_at", VStr u_created_at);
         ("lastLogin", VStr (isoformat now ++ "Z"))].

End Main.

(** * Variant 2: sample_fastapi.py *)

Module Sample.

(** ** Models *)

Record UserResponse : Type := mkUserResponse {
  ur_id : string;
  ur_name : string;
  ur_mobile : string;
  ur_created_at : string
}.

Record LoginRequest : Type := mkLoginRequest {
  lr_password : string
}.

Record LoginResponse : Type := mkLoginResponse {
  success : bool;
  token : string;
  refreshToken : string;
  expiresIn : nat;
  user : dict string
}.

Record CreateUserRequest : Type := mkCreateUserRequest {
  cu_password : string;
  cu_name : string;
  cu_mobile : string
}.

#[export] Instance UserResponse_model : BaseModel UserResponse := {
  model_name := "UserResponse";
  model_init kw :=
    rbind (required "UserResponse" kw "id") (fun a =>
    rbind (required "UserResponse" kw "name") (fun b =>
    rbind (required "UserResponse" kw "mobile") (fun c =>
    rbind (required "UserResponse" kw "created_at") (fun d =>
    Ok (mkUserResponse a b c d)))));
  model_attrs o :=
    [("id", ur_id o); ("name", ur_name o); ("mobile", ur_mobile o);
     ("created_at", ur_created_at o)]
}.

#[export] Instance LoginRequest_model : BaseModel LoginRequest := {
  model_name := "LoginRequest";
  model_init kw :=
    rbind (required "LoginRequest" kw "password") (fun a =>
    Ok (mkLoginRequest a));
  model_attrs o := [("password", lr_password o)]
}.

#[export] Instance CreateUserRequest_model : BaseModel CreateUserRequest := {
  model_name := "CreateUserRequest";
  model_init kw :=
    rbind (required "CreateUserRequest" kw "password") (fun a =>
    rbind (required "CreateUserRequest" kw "name") (fun b =>
    rbind (required "CreateUserRequest" kw "mobile") (fun c =>
    Ok (mkCreateUserRequest a b c))));
  model_attrs o :=
    [("password", cu_password o); ("name", cu_name o);
     ("mobile", cu_mobile o)]
}.

(** ** Fake data: the store at process start *)

Definition seed_db : store :=
  [("user1",
    [("id", "user1"); ("email", "john@example.com"); ("name", "John Doe");
     ("mobile", "+1-234-567-8900"); ("password", "hashed_password_123");
     ("created_at", "2024-01-01T10:00:00Z")]);
   ("user2",
    [("id", "user2"); ("email", "jane@example.com"); ("name", "Jane Smith");
     ("mobile", "+1-987-654-3210"); ("password", "hashed_password_456");
     ("created_at", "2024-01-02T10:00:00Z")])].

(** ** API endpoints *)

Definition root : M (dict value) :=
  ret [("message", VStr "User API is running");
       ("version", VStr "1.0.0");
       ("endpoints",
        VList [VStr "GET /users/{id}"; VStr "POST /users";
               VStr "POST /login"; VStr "GET /health"])].

Definition health_check : M (dict value) :=
  ret [("status", VStr "healthy")].

(** ** User endpoints *)

(** The [UserResponse(id=user["id"], email=user["email"], ...)] call of
    [get_user], [list_users] and [create_user]. *)
Definition user_response_of (user : record) : M UserResponse :=
  a_id <- subscript user "id" ;;
  a_email <- subscript user "email" ;;
  a_name <- subscript user "name" ;;
  a_mobile <- subscript user "mobile" ;;
  a_created_at <- subscript user "created_at" ;;
  lift (model_init [("id", a_id); ("email", a_email); ("name", a_name);
                    ("mobile", a_mobile); ("created_at", a_created_at)]).

Definition get_user (user_id : string) : M UserResponse :=
  db <- read_db ;;
  if negb (dict_in user_id db) then
    raise (HTTPException 404 "User not found")
  else
    user <- subscript db user_id ;;
    user_response_of user.

Definition list_users : M (list UserResponse) :=
  db <- read_db ;;
  comprehension user_response_of (dict_values db).

Definition create_user (request : CreateUserRequest) : M UserResponse :=
  db <- read_db ;;
  let new_user_id := "user" ++ str_of_int (len db + 1) in
  r_email <- getattr request "email" ;;
  r_password <- getattr request "password" ;;
  r_name <- getattr request "name" ;;
  r_mobile <- getattr request "mobile" ;;
  now <- datetime_now ;;
  let new_user : record :=
    [("id", new_user_id); ("email", r_email); ("password", r_password);
     ("name", r_name); ("mobile", r_mobile);
     ("created_at", isoformat now ++ "Z")] in
  store_setitem new_user_id new_user ;;;
  user_response_of new_user.

(** ** Authentication endpoints *)

(** The [for uid, u in fake_users_db.items()] loop of [login]. *)
Fixpoint login_scan (request : LoginRequest) (items : list (string * record))
  : M (option (string * record)) :=
  match items with
  | [] => ret None
  | (uid, u) :: rest =>
      u_email <- subscript u "email" ;;
      r_email <- getattr request "email" ;;
      if String.eqb u_email r_email then ret (Some (uid, u))
      else login_scan request rest
  end.

(** This variant compares no password. *)
Definition login (request : LoginRequest) : M LoginResponse :=
  db <- read_db ;;
  found <- login_scan request (dict_items db) ;;
  match found with
  | None => raise (HTTPException 401 "Invalid credentials")
  | Some (user_id, user) =>
      if dict_falsy user then
        raise (HTTPException 401 "Invalid credentials")
      else
        now1 <- datetime_now ;;
        let token := "token_jwt_" ++ user_id ++ "_" ++ timestamp now1 in
        now2 <- datetime_now ;;
        let refresh_token :=
          "refresh_" ++ user_id ++ "_" ++ timestamp now2 in
        u_id <- subscript user "id" ;;
        u_email <- subscript user "email" ;;
        u_name <- subscript user "name" ;;
        ret (mkLoginResponse true token refresh_token 3600
               [("id", u_id); ("email", u_email); ("name", u_name)])
  end.

Definition refresh_token (refresh_token : string) : M (dict value) :=
  if negb (startswith refresh_token "refresh_") then
    raise (HTTPException 401 "Invalid refresh token")
  else
    now1 <- datetime_now ;;
    let new_token := "token_jwt_refreshed_" ++ timestamp now1 in
    now2 <- datetime_now ;;
    let new_refresh_token := "refresh_refreshed_" ++ timestamp now2 in
    ret [("token", VStr new_token);
         ("refreshToken", VStr new_refresh_token);
         ("expiresIn", VInt 3600)].

(** ** Profile endpoints *)

Definition get_profile (token : string) : M (dict value) :=
  if negb (startswith token "token_") then
    raise (HTTPException 401 "Invalid token")
  else
    db <- read_db ;;
    user <- subscript db "user1" ;;
    u_id <- subscript user "id" ;;
    u_email <- subscript user "email" ;;
    u_name <- subscript user "name" ;;
    u_mobile <- subscript user "mobile" ;;
    u_created_at <- subscript user "created_at" ;;
    now <- datetime_now ;;
    ret [("id", VStr u_id); ("email", VStr u_email); ("name", VStr u_name);
         ("mobile", VStr u_mobile); ("created_at", VStr u_created_at);
         ("lastLogin", VStr (isoformat now ++ "Z"))].

(** ** Status endpoint *)

Definition get_status : M (dict value) :=
  now <- datetime_now ;;
  db <- read_db ;;
  ret [("status", VStr "running");
       ("version", VStr "1.0.0");
       ("timestamp", VStr (isoformat now ++ "Z"));
       ("users_count", VInt (len db))].

End Sample.

(** * The service as a transition system

    One [operation] per endpoint, its response serialised to a wire [value];
    a run is a sequence of operations from the world the process starts in. *)

Definition json_of_attrs {T} `{BaseModel T} (o : T) : value :=
  json_of_record (model_attrs o).

Definition respond {A} (f : A -> value) (m : M A) : M value :=
  fun w => (result_map f (fst (m w)), snd (m w)).

Module MainService.
Import Main.

Inductive operation : Type :=
| Root
| Health
| Status
| GetUser (user_id : string)
| ListUsers
| CreateUser (request : CreateUserRequest)
| Login (request : LoginRequest)
| RefreshToken (request : RefreshTokenRequest)
| GetProfile (token : string).

Definition json_of_login (r : LoginResponse) : value :=
  VDict [("success", VBool (success r)); ("token", VStr (token r));
         ("refreshToken", VStr (refreshToken r));
         ("expiresIn", VInt (expiresIn r));
         ("user", json_of_record (user r))].

Definition handle (op : operation) : M value :=
  match op with
  | Root => respond VDict root
  | Health => respond VDict health_check
  | Status => respond VDict get_status
  | GetUser user_id => respond json_of_attrs (get_user user_id)
  | ListUsers =>
      respond (fun l => VList (map json_of_attrs l)) list_users
  | CreateUser request => respond json_of_attrs (create_user request)
  | Login request => respond json_of_login (login request)
  | RefreshToken request => respond VDict (refresh_token request)
  | GetProfile token => respond VDict (get_profile token)
  end.

Definition is_create (op : operation) : bool :=
  match op with CreateUser _ => true | _ => false end.

Definition is_login (op : operation) : bool :=
  match op with Login _ => true | _ => false end.

Definition initial (clock : nat -> datetime) : World :=
  mkWorld seed_db clock 0.

(** The world after serving the operations of [ops] in order. *)
Fixpoint run (ops : list operation) (w : World) : World :=
  match ops with
  | [] => w
  | op :: ops' => run ops' (snd (handle op w))
  end.

(** The responses given while serving [ops] in order. *)
Fixpoint responses (ops : list operation) (w : World)
  : list (result value) :=
  match ops with
  | [] => []
  | op :: ops' => fst (handle op w) :: responses ops' (snd (handle op w))
  end.

Definition reachable (w : World) : Prop :=
  exists clock ops, w = run ops (initial clock).
End MainService.

Module SampleService.
Import Sample.

Inductive operation : Type :=
| Root
| Health
| Status
| GetUser (user_id : string)
| ListUsers
| CreateUser (request : CreateUserRequest)
| Login (request : LoginRequest)
| RefreshToken (refresh_token : string)
| GetProfile (token : string).

Definition json_of_login (r : LoginResponse) : value :=
  VDict [("success", VBool (success r)); ("token", VStr (token r));
         ("refreshToken", VStr (refreshToken r));
         ("expiresIn", VInt (expiresIn r));
         ("user", json_of_record (user r))].

Definition handle (op : operation) : M value :=
  match op with
  | Root => respond VDict root
  | Health => respond VDict health_check
  | Status => respond VDict get_status
  | GetUser user_id => respond json_of_attrs (get_user user_id)
  | ListUsers =>
      respond (fun l => VList (map json_of_attrs l)) list_users
  | CreateUser request => respond json_of_attrs (create_user request)
  | Login request => respond json_of_login (login request)
  | RefreshToken s => respond VDict (refresh_token s)
  | GetProfile token => respond VDict (get_profile token)
  end.

Definition is_create (op : operation) : bool :=
  match op with CreateUser _ => true | _ => false end.

Definition is_login (op : operation) : bool :=
  match op with Login _ => true | _ => false end.

Definition initial (clock : nat -> datetime) : World :=
  mkWorld seed_db clock 0.

Fixpoint run (ops : list operation) (w : World) : World :=
  match ops with
  | [] => w
  | op :: ops' => run ops' (snd (handle op w))
  end.

Fixpoint responses (ops : list operation) (w : World)
  : list (result value) :=
  match ops with
  | [] => []
  | op :: ops' => fst (handle op w) :: responses ops' (snd (handle op w))
  end.

Definition reachable (w : World) : Prop :=
  exists clock ops, w = run ops (initial clock).
End SampleService.

(** ** Predicates on computations and values *)

(** [frame m]: [m] leaves the store as it found it, whatever its outcome. *)
Definition frame {A} (m : M A) : Prop :=
  forall w, fake_users_db (snd (m w)) = fake_users_db w.

(** Two optional values, both missing or both present and related. *)
Definition option_rel {A} (R : A -> A -> Prop) (o1 o2 : option A) : Prop :=
  match o1, o2 with
  | Some a1, Some a2 => R a1 a2
  | None, None => True
  | _, _ => False
  end.

(** A wire value without a ["password"] field, at any depth. *)
Definition no_password (v : value) : Prop := has_field "password" v = false.

(** ** Stores that differ only in stored password values *)

(** Same keys in the same order, same values except under ["password"]. *)
Fixpoint record_same_but_password (r1 r2 : record) : bool :=
  match r1, r2 with
  | [], [] => true
  | (k1, v1) :: r1', (k2, v2) :: r2' =>
      String.eqb k1 k2
      && (String.eqb k1 "password" || String.eqb v1 v2)
      && record_same_but_password r1' r2'
  | _, _ => false
  end.

(** Same ids in the same order, records equal up to password values. *)
Fixpoint same_but_password (db1 db2 : store) : bool :=
  match db1, db2 with
  | [], [] => true
  | (id1, r1) :: db1', (id2, r2) :: db2' =>
      String.eqb id1 id2
      && record_same_but_password r1 r2
      && same_but_password db1' db2'
  | _, _ => false
  end.

(** Every record of [db] is still in [db'], unchanged. *)
Definition store_extends (db db' : store) : Prop :=
  forall id r, dict_get id db = Some r -> dict_get id db' = Some r.

(** Two worlds that an observer who cannot see password values cannot tell
    apart: stores equal up to password values, same clock. *)
Definition low_eq (w1 w2 : World) : Prop :=
  same_but_password (fake_users_db w1) (fake_users_db w2) = true
  /\ wall_clock w1 = wall_clock w2
  /\ clock_reads w1 = clock_reads w2.

(** [agree m1 m2]: run on indistinguishable worlds, [m1] and [m2] give the
    same outcome and leave indistinguishable worlds. *)
Definition agree {A} (m1 m2 : M A) : Prop :=
  forall w1 w2, low_eq w1 w2 ->
    fst (m1 w1) = fst (m2 w2) /\ low_eq (snd (m1 w1)) (snd (m2 w2)).

(** ** Tokens and the two prefix checks *)

Definition accepted_by_get_profile (t : string) : Prop :=
  forall w, status_of (fst (Main.get_profile t w)) <> 401
            /\ status_of (fst (Sample.get_profile t w)) <> 401.

Definition rejected_by_get_profile (t : string) : Prop :=
  forall w, status_of (fst (Main.get_profile t w)) = 401
            /\ status_of (fst (Sample.get_profile t w)) = 401.

Definition accepted_by_refresh_token (t : string) : Prop :=
  forall w,
    status_of (fst (Main.refresh_token (Main.mkRefreshTokenRequest t) w)) = 200
    /\ status_of (fst (Sample.refresh_token t w)) = 200.

Definition rejected_by_refresh_token (t : string) : Prop :=
  forall w,
    status_of (fst (Main.refresh_token (Main.mkRefreshTokenRequest t) w)) = 401
    /\ status_of (fst (Sample.refresh_token t w)) = 401.

(** An access token as the service issues them, and what the two endpoints
    make of it. *)
Definition access_token_ok (t : string) : Prop :=
  startswith t "token_jwt_" = true
  /\ startswith t "token_" = true
  /\ startswith t "refresh_" = false
  /\ accepted_by_get_profile t
  /\ rejected_by_refresh_token t.

(** Likewise for a refresh token. *)
Definition refresh_token_ok (t : string) : Prop :=
  startswith t "refresh_" = true
  /\ startswith t "token_" = false
  /\ accepted_by_refresh_token t
  /\ rejected_by_get_profile t.

(** [ensures m Q]: whatever [m] returns satisfies [Q]. *)
Definition ensures {A} (m : M A) (Q : A -> Prop) : Prop :=
  forall w a, fst (m w) = Ok a -> Q a.

(** ** Effects of a computation on the world *)

(** [effect_free m]: [m] leaves the whole world, store and clock, as it was. *)
Definition effect_free {A} (m : M A) : Prop :=
  forall w, snd (m w) = w.

(** [fails_clean m]: when [m] raises, the world is as it was. *)
Definition fails_clean {A} (m : M A) : Prop :=
  forall w e, fst (m w) = Raise e -> snd (m w) = w.

(** [never_raises m]: [m] returns a value in every world. *)
Definition never_raises {A} (m : M A) : Prop :=
  forall w, is_ok (fst (m w)) = true.

(** [has_keys ks u]: the record [u] has every key of [ks]. *)
Definition has_keys (ks : list string) (u : record) : bool :=
  forallb (fun k => dict_in k u) ks.

(** The operations that leave through the [UserResponse] shape. *)
Definition main_answers_user_shape (op : MainService.operation) : bool :=
  match op with
  | MainService.GetUser _ | MainService.ListUsers
  | MainService.CreateUser _ => true
  | _ => false
  end.

Definition sample_answers_user_shape (op : SampleService.operation) : bool :=
  match op with
  | SampleService.GetUser _ | SampleService.ListUsers
  | SampleService.CreateUser _ => true
  | _ => false
  end.

(** The operations that read no clock: everything except status,
    refresh-token and get-profile. *)
Definition main_reads_no_clock (op : MainService.operation) : bool :=
  match op with
  | MainService.Status | MainService.RefreshToken _
  | MainService.GetProfile _ => false
  | _ => true
  end.

Definition sample_reads_no_clock (op : SampleService.operation) : bool :=
  match op with
  | SampleService.Status | SampleService.RefreshToken _
  | SampleService.GetProfile _ => false
  | _ => true
  end.

(** [wire_of u r]: the response [r] carries the values the record [u] holds
    under id, name, mobile and created_at. *)
Definition wire_of (u : record) (r : Sample.UserResponse) : Prop :=
  dict_get "id" u = Some (Sample.ur_id r)
  /\ dict_get "name" u = Some (Sample.ur_name r)
  /\ dict_get "mobile" u = Some (Sample.ur_mobile r)
  /\ dict_get "created_at" u = Some (Sample.ur_created_at r).

(** * Properties *)

(** ** Strings *)

Lemma startswith_app (p s : string) : startswith (p ++ s) p = true.
Proof.
  induction p as [|c p IH]; simpl; [reflexivity|].
  now rewrite Ascii.eqb_refl, IH.
Qed.

(** ** Frame rules: computations that leave the store alone *)

Lemma frame_ret {A} (a : A) : frame (ret a).
Proof. now intros w. Qed.

Lemma frame_raise {A} (e : exn) : frame (@raise A e).
Proof. now intros w. Qed.

Lemma frame_lift {A} (r : result A) : frame (lift r).
Proof. now intros w. Qed.

Lemma frame_read_db : frame read_db.
Proof. now intros w. Qed.

Lemma frame_datetime_now : frame datetime_now.
Proof. now intros w. Qed.

Lemma frame_bind {A B} (m : M A) (k : A -> M B) :
  frame m -> (forall a, frame (k a)) -> frame (bind m k).
Proof.
  intros Hm Hk w. unfold bind.
  specialize (Hm w). destruct (m w) as [[a|e] w']; simpl in *.
  - now rewrite Hk.
  - exact Hm.
Qed.

Lemma frame_subscript {V} (d : dict V) (k : string) : frame (subscript d k).
Proof. unfold subscript. destruct (dict_get k d); [apply frame_ret | apply frame_raise]. Qed.

Lemma frame_getattr {T} `{BaseModel T} (o : T) (a : string) :
  frame (getattr o a).
Proof.
  unfold getattr.
  destruct (dict_get a (model_attrs o)); [apply frame_ret | apply frame_raise].
Qed.

Lemma frame_comprehension {A B} (f : A -> M B) (l : list A) :
  (forall a, frame (f a)) -> frame (comprehension f l).
Proof.
  intros Hf. induction l as [|a l IH]; simpl.
  - apply frame_ret.
  - apply frame_bind; [apply Hf|]. intros b.
    apply frame_bind; [exact IH|]. intros bs. apply frame_ret.
Qed.

Lemma frame_respond {A} (f : A -> value) (m : M A) :
  frame m -> frame (respond f m).
Proof. intros Hm w. exact (Hm w). Qed.

Create HintDb frame.
#[export] Hint Resolve frame_ret frame_raise frame_lift frame_read_db
  frame_datetime_now frame_subscript frame_comprehension
  frame_respond : frame.
#[export] Hint Extern 1 (frame (getattr _ _)) => apply frame_getattr : frame.
#[export] Hint Extern 2 (frame (bind _ _)) =>
  apply frame_bind; [|intro] : frame.
#[export] Hint Extern 3 (frame (if ?b then _ else _)) => destruct b : frame.

Ltac frame_tac := auto 30 with frame.

(** ** What each handler does to the store *)

Lemma main_user_response_of_frame (u : record) : frame (Main.user_response_of u).
Proof. unfold Main.user_response_of. frame_tac. Qed.

Lemma sample_user_response_of_frame (u : record) :
  frame (Sample.user_response_of u).
Proof. unfold Sample.user_response_of. frame_tac. Qed.

(** [create_user] reads an attribute its request shape does not declare, in
    both variants: it raises before the clock is read and before the insert. *)
Lemma main_create_user_raises (request : Main.CreateUserRequest) (w : World) :
  Main.create_user request w
  = (Raise (AttributeError "CreateUserRequest" "gmail"), w).
Proof. reflexivity. Qed.

Lemma sample_create_user_raises (request : Sample.CreateUserRequest) (w : World) :
  Sample.create_user request w
  = (Raise (AttributeError "CreateUserRequest" "email"), w).
Proof. reflexivity. Qed.

(** The scan of [login] stops at the first record: either the record has no
    contact key, or the request has no contact attribute. *)
Lemma main_login_scan_cons request uid (u : record) rest (w : World) :
  Main.login_scan request ((uid, u) :: rest) w
  = (Raise (match dict_get "gmail" u with
            | Some _ => AttributeError "LoginRequest" "gmail"
            | None => KeyError "gmail"
            end), w).
Proof.
  simpl. unfold bind, subscript. now destruct (dict_get "gmail" u).
Qed.

Lemma sample_login_scan_cons request uid (u : record) rest (w : World) :
  Sample.login_scan request ((uid, u) :: rest) w
  = (Raise (match dict_get "email" u with
            | Some _ => AttributeError "LoginRequest" "email"
            | None => KeyError "email"
            end), w).
Proof.
  simpl. unfold bind, subscript. now destruct (dict_get "email" u).
Qed.

(** [login] on an arbitrary store: 401 on the empty store, an unhandled
    exception otherwise; the world is left as it was. *)
Lemma main_login_outcome (request : Main.LoginRequest) (w : World) :
  Main.login request w
  = (Raise (match fake_users_db w with
            | [] => HTTPException 401 "Invalid credentials"
            | (_, u) :: _ =>
                match dict_get "gmail" u with
                | Some _ => AttributeError "LoginRequest" "gmail"
                | None => KeyError "gmail"
                end
            end), w).
Proof.
  unfold Main.login, bind at 1, read_db, dict_items.
  destruct (fake_users_db w) as [|[uid u] rest].
  - reflexivity.
  - unfold bind. now rewrite main_login_scan_cons.
Qed.

Lemma sample_login_outcome (request : Sample.LoginRequest) (w : World) :
  Sample.login request w
  = (Raise (match fake_users_db w with
            | [] => HTTPException 401 "Invalid credentials"
            | (_, u) :: _ =>
                match dict_get "email" u with
                | Some _ => AttributeError "LoginRequest" "email"
                | None => KeyError "email"
                end
            end), w).
Proof.
  unfold Sample.login, bind at 1, read_db, dict_items.
  destruct (fake_users_db w) as [|[uid u] rest].
  - reflexivity.
  - unfold bind. now rewrite sample_login_scan_cons.
Qed.

Lemma main_handle_frame (op : MainService.operation) :
  frame (MainService.handle op).
Proof.
  destruct op; simpl; apply frame_respond.
  - apply frame_ret.
  - apply frame_ret.
  - unfold Main.get_status. frame_tac.
  - unfold Main.get_user. pose proof main_user_response_of_frame. frame_tac.
  - unfold Main.list_users. pose proof main_user_response_of_frame. frame_tac.
  - intros w. now rewrite main_create_user_raises.
  - intros w. now rewrite main_login_outcome.
  - unfold Main.refresh_token. frame_tac.
  - unfold Main.get_profile. frame_tac.
Qed.

Lemma sample_handle_frame (op : SampleService.operation) :
  frame (SampleService.handle op).
Proof.
  destruct op; simpl; apply frame_respond.
  - apply frame_ret.
  - apply frame_ret.
  - unfold Sample.get_status. frame_tac.
  - unfold Sample.get_user. pose proof sample_user_response_of_frame. frame_tac.
  - unfold Sample.list_users. pose proof sample_user_response_of_frame.
    frame_tac.
  - intros w. now rewrite sample_create_user_raises.
  - intros w. now rewrite sample_login_outcome.
  - unfold Sample.refresh_token. frame_tac.
  - unfold Sample.get_profile. frame_tac.
Qed.

(** ** Reachable worlds hold the seed store *)

Lemma main_run_db (ops : list MainService.operation) (w : World) :
  fake_users_db (MainService.run ops w) = fake_users_db w.
Proof.
  revert w. induction ops as [|op ops IH]; intros w; simpl.
  - reflexivity.
  - rewrite IH. apply main_handle_frame.
Qed.

Lemma sample_run_db (ops : list SampleService.operation) (w : World) :
  fake_users_db (SampleService.run ops w) = fake_users_db w.
Proof.
  revert w. induction ops as [|op ops IH]; intros w; simpl.
  - reflexivity.
  - rewrite IH. apply sample_handle_frame.
Qed.

Lemma main_reachable_seed (w : World) :
  MainService.reachable w -> fake_users_db w = Main.seed_db.
Proof. intros (clock & ops & ->). now rewrite main_run_db. Qed.

Lemma sample_reachable_seed (w : World) :
  SampleService.reachable w -> fake_users_db w = Sample.seed_db.
Proof. intros (clock & ops & ->). now rewrite sample_run_db. Qed.

(** ** Lookups by id *)

Lemma dict_in_get {V} (k : string) (d : dict V) :
  dict_in k d = true -> exists v, dict_get k d = Some v.
Proof. unfold dict_in. destruct (dict_get k d); [eauto | discriminate]. Qed.

(** Building a [UserResponse] from a record answers 200 or 500, never an
    HTTP error of the handlers' own. *)
Lemma main_user_response_of_status (u : record) (w : World) :
  status_of (fst (Main.user_response_of u w)) = 200
  \/ status_of (fst (Main.user_response_of u w)) = 500.
Proof.
  unfold Main.user_response_of, bind, subscript, lift.
  repeat match goal with
         | |- context [dict_get ?k u] => destruct (dict_get k u); simpl
         end; auto.
Qed.

Lemma sample_user_response_of_status (u : record) (w : World) :
  status_of (fst (Sample.user_response_of u w)) = 200
  \/ status_of (fst (Sample.user_response_of u w)) = 500.
Proof.
  unfold Sample.user_response_of, bind, subscript, lift.
  repeat match goal with
         | |- context [dict_get ?k u] => destruct (dict_get k u); simpl
         end; auto.
Qed.

(** In both variants [get_user] answers 404 exactly for the ids that are not
    in the store. *)
Lemma main_get_user_404_iff (user_id : string) (w : World) :
  status_of (fst (Main.get_user user_id w)) = 404
  <-> dict_in user_id (fake_users_db w) = false.
Proof.
  unfold Main.get_user, bind at 1, read_db.
  destruct (dict_in user_id (fake_users_db w)) eqn:E; simpl.
  - destruct (dict_in_get _ _ E) as [u Hu].
    unfold bind, subscript. rewrite Hu. simpl.
    destruct (main_user_response_of_status u w) as [H|H];
      destruct (Main.user_response_of u w) as [r w']; simpl in *;
      rewrite H; split; discriminate.
  - split; reflexivity.
Qed.

Lemma sample_get_user_404_iff (user_id : string) (w : World) :
  status_of (fst (Sample.get_user user_id w)) = 404
  <-> dict_in user_id (fake_users_db w) = false.
Proof.
  unfold Sample.get_user, bind at 1, read_db.
  destruct (dict_in user_id (fake_users_db w)) eqn:E; simpl.
  - destruct (dict_in_get _ _ E) as [u Hu].
    unfold bind, subscript. rewrite Hu. simpl.
    destruct (sample_user_response_of_status u w) as [H|H];
      destruct (Sample.user_response_of u w) as [r w']; simpl in *;
      rewrite H; split; discriminate.
  - split; reflexivity.
Qed.

(** The id the spec names as missing is missing from every reachable store. *)
Lemma get_user_user999 (wm ws : World) :
  MainService.reachable wm -> SampleService.reachable ws ->
  status_of (fst (Main.get_user "user999" wm)) = 404
  /\ status_of (fst (Sample.get_user "user999" ws)) = 404.
Proof.
  intros Hm Hs. split.
  - apply main_get_user_404_iff. now rewrite (main_reachable_seed Hm).
  - apply sample_get_user_404_iff. now rewrite (sample_reachable_seed Hs).
Qed.

(** sample_fastapi.py maps a stored seed record to its wire shape, which
    withholds the contact field and the password. *)
Lemma sample_get_user_seed (ws : World) :
  SampleService.reachable ws ->
  fst (Sample.get_user "user1" ws)
  = Ok (Sample.mkUserResponse "user1" "John Doe" "+1-234-567-8900"
          "2024-01-01T10:00:00Z")
  /\ fst (Sample.get_user "user2" ws)
  = Ok (Sample.mkUserResponse "user2" "Jane Smith" "+1-987-654-3210"
          "2024-01-02T10:00:00Z").
Proof.
  intros Hs. pose proof (sample_reachable_seed Hs) as E.
  unfold Sample.get_user, bind, read_db. rewrite E. split; reflexivity.
Qed.

(** sample_fastapi.py lists the seed records in insertion order. *)
Lemma sample_list_users_seed (ws : World) :
  SampleService.reachable ws ->
  Sample.list_users ws
  = (Ok [Sample.mkUserResponse "user1" "John Doe" "+1-234-567-8900"
           "2024-01-01T10:00:00Z";
         Sample.mkUserResponse "user2" "Jane Smith" "+1-987-654-3210"
           "2024-01-02T10:00:00Z"], ws).
Proof.
  intros Hs. pose proof (sample_reachable_seed Hs) as E.
  unfold Sample.list_users, bind at 1, read_db. now rewrite E.
Qed.

(** * The claims *)

(** C1 (login answers success on matching contact and password, 401
    otherwise).  The code does neither on the store the service runs with:
    for every request, main.py's scan raises [KeyError] on the seed records'
    missing ["gmail"] key and sample_fastapi.py's scan raises
    [AttributeError] on the request's missing [email] attribute, so every
    login is answered with status 500, the world unchanged. *)
Theorem login_raises_on_seed_store
  (clock : nat -> datetime) (n : nat)
  (request_main : Main.LoginRequest) (request_sample : Sample.LoginRequest) :
  Main.login request_main (mkWorld Main.seed_db clock n)
  = (Raise (KeyError "gmail"), mkWorld Main.seed_db clock n)
  /\ Sample.login request_sample (mkWorld Sample.seed_db clock n)
  = (Raise (AttributeError "LoginRequest" "email"),
     mkWorld Sample.seed_db clock n)
  /\ status_of (fst (Main.login request_main (mkWorld Main.seed_db clock n)))
     = 500
  /\ status_of
       (fst (Sample.login request_sample (mkWorld Sample.seed_db clock n)))
     = 500.
Proof.
  rewrite main_login_outcome, sample_login_outcome. simpl. auto.
Qed.

(** C2 (get-user answers 404 exactly for absent ids and 200 with the mapped
    record otherwise).  In main.py a stored id is answered with neither: the
    handler raises [KeyError] on ["gmail"], a key no seed record has, so
    [get_user "user1"] and [get_user "user2"] end in status 500. *)
Theorem main_get_user_raises_on_stored_id (clock : nat -> datetime) (n : nat) :
  Main.get_user "user1" (mkWorld Main.seed_db clock n)
  = (Raise (KeyError "gmail"), mkWorld Main.seed_db clock n)
  /\ Main.get_user "user2" (mkWorld Main.seed_db clock n)
  = (Raise (KeyError "gmail"), mkWorld Main.seed_db clock n)
  /\ status_of (fst (Main.get_user "user1" (mkWorld Main.seed_db clock n)))
     = 500.
Proof. repeat split. Qed.

(** C3 (create-user followed by get-user round-trips the fields).  In both
    variants [create_user] raises [AttributeError] for every request and
    every world, before the insert: nothing is created, and on the seed
    store the id a create would have returned is still answered with 404. *)
Theorem create_user_raises_before_insert
  (request_main : Main.CreateUserRequest)
  (request_sample : Sample.CreateUserRequest) (w : World)
  (clock : nat -> datetime) (n : nat) :
  Main.create_user request_main w
  = (Raise (AttributeError "CreateUserRequest" "gmail"), w)
  /\ Sample.create_user request_sample w
  = (Raise (AttributeError "CreateUserRequest" "email"), w)
  /\ status_of
       (fst (Main.get_user "user3"
               (snd (Main.create_user request_main
                       (mkWorld Main.seed_db clock n))))) = 404
  /\ status_of
       (fst (Sample.get_user "user3"
               (snd (Sample.create_user request_sample
                       (mkWorld Sample.seed_db clock n))))) = 404.
Proof. repeat split. Qed.

(** C4 (n successful creates from the seed store assign user3 ... user(n+2)).
    No create is successful: served one after another from the process
    start, the create requests of any list are each answered with the
    [AttributeError], no id is assigned and the store still holds exactly
    its two seed records, in both variants. *)
Theorem sequential_creates_assign_no_id
  (clock : nat -> datetime)
  (requests_main : list Main.CreateUserRequest)
  (requests_sample : list Sample.CreateUserRequest) :
  MainService.responses (map MainService.CreateUser requests_main)
    (MainService.initial clock)
  = map (fun _ => Raise (AttributeError "CreateUserRequest" "gmail"))
      requests_main
  /\ MainService.run (map MainService.CreateUser requests_main)
       (MainService.initial clock)
     = MainService.initial clock
  /\ SampleService.responses (map SampleService.CreateUser requests_sample)
       (SampleService.initial clock)
     = map (fun _ => Raise (AttributeError "CreateUserRequest" "email"))
         requests_sample
  /\ SampleService.run (map SampleService.CreateUser requests_sample)
       (SampleService.initial clock)
     = SampleService.initial clock.
Proof.
  generalize (MainService.initial clock) as wm.
  generalize (SampleService.initial clock) as ws.
  intros ws wm. repeat split.
  - induction requests_main as [|r l IH]; simpl; [reflexivity | now rewrite IH].
  - induction requests_main as [|r l IH]; simpl; [reflexivity | exact IH].
  - induction requests_sample as [|r l IH]; simpl;
      [reflexivity | now rewrite IH].
  - induction requests_sample as [|r l IH]; simpl; [reflexivity | exact IH].
Qed.

(** C5 (list-users never fails and returns every record in insertion order).
    main.py's [list_users] fails on the store the service starts with: the
    comprehension raises [KeyError] on the first record's missing ["gmail"]
    key, which is answered with status 500. *)
Theorem main_list_users_raises_on_seed (clock : nat -> datetime) (n : nat) :
  Main.list_users (mkWorld Main.seed_db clock n)
  = (Raise (KeyError "gmail"), mkWorld Main.seed_db clock n)
  /\ status_of (fst (Main.list_users (mkWorld Main.seed_db clock n))) = 500.
Proof. split; reflexivity. Qed.

(** C6: for every string [s] and every world, in both variants,
    refresh-token answers 401 exactly when [s] does not start with
    ["refresh_"]; when it does, the answer is 200 with a token pair built
    from the next two clock readings and a validity of 3600 seconds.  The
    store is not consulted, so whether [s] was ever issued plays no part. *)
Theorem refresh_token_prefix_check (s : string) (w : World) :
  let answer :=
    if startswith s "refresh_" then
      Ok [("token",
           VStr ("token_jwt_refreshed_"
                 ++ timestamp (wall_clock w (clock_reads w))));
          ("refreshToken",
           VStr ("refresh_refreshed_"
                 ++ timestamp (wall_clock w (S (clock_reads w)))));
          ("expiresIn", VInt 3600)]
    else Raise (HTTPException 401 "Invalid refresh token") in
  fst (Main.refresh_token (Main.mkRefreshTokenRequest s) w) = answer
  /\ fst (Sample.refresh_token s w) = answer
  /\ (status_of (fst (Main.refresh_token (Main.mkRefreshTokenRequest s) w))
      = 401 <-> startswith s "refresh_" = false)
  /\ (status_of (fst (Sample.refresh_token s w)) = 401
      <-> startswith s "refresh_" = false)
  /\ (status_of (fst (Main.refresh_token (Main.mkRefreshTokenRequest s) w))
      = 200 <-> startswith s "refresh_" = true)
  /\ (status_of (fst (Sample.refresh_token s w)) = 200
      <-> startswith s "refresh_" = true).
Proof.
  unfold Main.refresh_token, Sample.refresh_token, bind, getattr.
  cbn -[startswith].
  destruct (startswith s "refresh_"); cbn;
    repeat split; intros; try reflexivity; discriminate.
Qed.

Lemma refresh_token_prefix_check_witness :
  let w := MainService.initial
             (fun _ => mkDatetime "2025-01-01T00:00:00" "1735689600.5") in
  status_of (fst (Sample.refresh_token "refresh_never_issued" w)) = 200
  /\ status_of
       (fst (Main.refresh_token (Main.mkRefreshTokenRequest "token_jwt_x") w))
     = 401.
Proof.
  intros w. split.
  - apply (proj2 (proj2 (proj2 (proj2 (proj2
             (refresh_token_prefix_check "refresh_never_issued" w)))))).
    reflexivity.
  - apply (proj1 (proj2 (proj2 (refresh_token_prefix_check "token_jwt_x" w)))).
    reflexivity.
Defined.

(** C7 (get-profile answers 200 with user1's fields for every token that
    starts with ["token_"]).  main.py does not: on the seed store, for every
    such token, the handler raises [KeyError] on user1's missing ["gmail"]
    key and the request ends in status 500. *)
Theorem main_get_profile_raises_on_seed
  (clock : nat -> datetime) (n : nat) (rest : string) :
  Main.get_profile ("token_" ++ rest) (mkWorld Main.seed_db clock n)
  = (Raise (KeyError "gmail"), mkWorld Main.seed_db clock n)
  /\ status_of
       (fst (Main.get_profile ("token_" ++ rest)
               (mkWorld Main.seed_db clock n))) = 500.
Proof. split; reflexivity. Qed.

(** What does hold of get-profile in both variants: 401 is answered exactly
    for the tokens that do not start with ["token_"]. *)
Lemma subscript_status {V} (d : dict V) (k : string) (w : World) :
  (exists v, subscript d k w = (Ok v, w))
  \/ subscript d k w = (Raise (KeyError k), w).
Proof.
  unfold subscript. destruct (dict_get k d) as [v|].
  - left. now exists v.
  - now right.
Qed.

Ltac step_subscript d k w :=
  unfold bind at 1;
  destruct (subscript_status d k w) as [[? ->] | ->]; [|discriminate].

Lemma main_get_profile_401_iff (token : string) (w : World) :
  status_of (fst (Main.get_profile token w)) = 401
  <-> startswith token "token_" = false.
Proof.
  unfold Main.get_profile.
  destruct (startswith token "token_"); simpl; [|split; reflexivity].
  split; [|discriminate]. unfold bind at 1, read_db.
  step_subscript (fake_users_db w) "user1" w.
  step_subscript x "id" w. step_subscript x "gmail" w.
  step_subscript x "name" w. step_subscript x "phone" w.
  step_subscript x "created_at" w. discriminate.
Qed.

Lemma sample_get_profile_401_iff (token : string) (w : World) :
  status_of (fst (Sample.get_profile token w)) = 401
  <-> startswith token "token_" = false.
Proof.
  unfold Sample.get_profile.
  destruct (startswith token "token_"); simpl; [|split; reflexivity].
  split; [|discriminate]. unfold bind at 1, read_db.
  step_subscript (fake_users_db w) "user1" w.
  step_subscript x "id" w. step_subscript x "email" w.
  step_subscript x "name" w. step_subscript x "mobile" w.
  step_subscript x "created_at" w. discriminate.
Qed.

(** sample_fastapi.py answers a well-prefixed token with user1's fields and a
    [lastLogin] stamped from the clock, whoever the token was issued to. *)
Lemma sample_get_profile_seed (rest : string) (ws : World) :
  SampleService.reachable ws ->
  fst (Sample.get_profile ("token_" ++ rest) ws)
  = Ok [("id", VStr "user1"); ("email", VStr "john@example.com");
        ("name", VStr "John Doe"); ("mobile", VStr "+1-234-567-8900");
        ("created_at", VStr "2024-01-01T10:00:00Z");
        ("lastLogin",
         VStr (isoformat (wall_clock ws (clock_reads ws)) ++ "Z"))].
Proof.
  intros Hs. pose proof (sample_reachable_seed Hs) as E.
  unfold Sample.get_profile. simpl. unfold bind, read_db. now rewrite E.
Qed.

(** C8: in both variants every operation other than create-user leaves the
    store mapping exactly as it was, whether it returns or raises; a
    create-user call and any run of operations keep every stored record
    under its id with its value, so no record is deleted or updated. *)
Theorem only_create_user_may_touch_the_store
  (om : MainService.operation) (os : SampleService.operation) (w : World) :
  MainService.is_create om = false ->
  SampleService.is_create os = false ->
  fake_users_db (snd (MainService.handle om w)) = fake_users_db w
  /\ fake_users_db (snd (SampleService.handle os w)) = fake_users_db w
  /\ (forall request,
        store_extends (fake_users_db w)
          (fake_users_db
             (snd (MainService.handle (MainService.CreateUser request) w))))
  /\ (forall request,
        store_extends (fake_users_db w)
          (fake_users_db
             (snd (SampleService.handle
                     (SampleService.CreateUser request) w))))
  /\ (forall ops,
        store_extends (fake_users_db w)
          (fake_users_db (MainService.run ops w)))
  /\ (forall ops,
        store_extends (fake_users_db w)
          (fake_users_db (SampleService.run ops w))).
Proof.
  intros _ _. repeat split.
  - apply main_handle_frame.
  - apply sample_handle_frame.
  - intros request id r H. now rewrite main_handle_frame.
  - intros request id r H. now rewrite sample_handle_frame.
  - intros ops id r H. now rewrite main_run_db.
  - intros ops id r H. now rewrite sample_run_db.
Qed.

Lemma only_create_user_may_touch_the_store_witness :
  let w := MainService.initial (fun _ => mkDatetime "2025-01-01T00:00:00" "0.0") in
  fake_users_db (snd (MainService.handle (MainService.GetUser "user1") w))
  = fake_users_db w
  /\ fake_users_db (snd (SampleService.handle SampleService.ListUsers w))
     = fake_users_db w.
Proof.
  intros w.
  pose proof (@only_create_user_may_touch_the_store
                (MainService.GetUser "user1") SampleService.ListUsers w
                eq_refl eq_refl) as H.
  split; [exact (proj1 H) | exact (proj1 (proj2 H))].
Defined.

(** ** Stores equal up to password values *)

Lemma record_same_but_password_get (r1 r2 : record) (k : string) :
  record_same_but_password r1 r2 = true ->
  k <> "password" ->
  dict_get k r1 = dict_get k r2.
Proof.
  revert r2. induction r1 as [|[k1 v1] r1 IH]; intros [|[k2 v2] r2];
    simpl; try discriminate; auto.
  intros H Hk.
  apply andb_prop in H as [H H3]. apply andb_prop in H as [H1 H2].
  apply String.eqb_eq in H1. subst k2.
  destruct (String.eqb k1 k) eqn:E.
  - apply String.eqb_eq in E. subst k1.
    apply orb_prop in H2 as [H2|H2]; apply String.eqb_eq in H2.
    + contradiction.
    + now subst v2.
  - now apply IH.
Qed.

Lemma same_but_password_get (db1 db2 : store) (id : string) :
  same_but_password db1 db2 = true ->
  option_rel (fun r1 r2 => record_same_but_password r1 r2 = true)
    (dict_get id db1) (dict_get id db2).
Proof.
  revert db2. induction db1 as [|[id1 r1] db1 IH]; intros [|[id2 r2] db2];
    simpl; try discriminate; auto.
  intros H.
  apply andb_prop in H as [H H3]. apply andb_prop in H as [H1 H2].
  apply String.eqb_eq in H1. subst id2.
  destruct (String.eqb id1 id); simpl; auto.
Qed.

Lemma same_but_password_in (db1 db2 : store) (id : string) :
  same_but_password db1 db2 = true -> dict_in id db1 = dict_in id db2.
Proof.
  intros H. pose proof (@same_but_password_get db1 db2 id H) as G.
  unfold dict_in.
  destruct (dict_get id db1), (dict_get id db2); simpl in G; tauto.
Qed.

Lemma same_but_password_len (db1 db2 : store) :
  same_but_password db1 db2 = true -> len db1 = len db2.
Proof.
  revert db2. induction db1 as [|[id1 r1] db1 IH]; intros [|[id2 r2] db2];
    simpl; try discriminate; auto.
  intros H. apply andb_prop in H as [_ H3]. unfold len in *. simpl.
  f_equal. now apply IH.
Qed.

Lemma same_but_password_values (db1 db2 : store) :
  same_but_password db1 db2 = true ->
  Forall2 (fun r1 r2 => record_same_but_password r1 r2 = true)
    (dict_values db1) (dict_values db2).
Proof.
  revert db2. induction db1 as [|[id1 r1] db1 IH]; intros [|[id2 r2] db2];
    simpl; try discriminate; auto.
  intros H. apply andb_prop in H as [H H3]. apply andb_prop in H as [_ H2].
  constructor; [exact H2 | now apply IH].
Qed.

(** ** What a handler can return *)

Lemma ensures_ret {A} (a : A) (Q : A -> Prop) : Q a -> ensures (ret a) Q.
Proof. intros H w a' E. simpl in E. now inversion E; subst. Qed.

Lemma ensures_raise {A} (e : exn) (Q : A -> Prop) : ensures (raise e) Q.
Proof. intros w a E. discriminate. Qed.

Lemma ensures_bind {A B} (m : M A) (k : A -> M B) (Q : B -> Prop) :
  (forall a, ensures (k a) Q) -> ensures (bind m k) Q.
Proof.
  intros Hk w b. unfold bind. destruct (m w) as [[a|e] w'].
  - apply Hk.
  - discriminate.
Qed.

Lemma ensures_respond {A} (f : A -> value) (m : M A) (Q : value -> Prop) :
  ensures m (fun a => Q (f a)) -> ensures (respond f m) Q.
Proof.
  intros Hm w v. unfold respond. simpl.
  specialize (Hm w). destruct (fst (m w)) as [a|e]; simpl.
  - intros E. inversion E; subst. now apply Hm.
  - discriminate.
Qed.

Lemma ensures_any {A} (m : M A) (Q : A -> Prop) :
  (forall a, Q a) -> ensures m Q.
Proof. intros H w a _. apply H. Qed.

Lemma main_user_response_no_password (r : Main.UserResponse) :
  no_password (@json_of_attrs _ Main.UserResponse_model r).
Proof. reflexivity. Qed.

Lemma sample_user_response_no_password (r : Sample.UserResponse) :
  no_password (@json_of_attrs _ Sample.UserResponse_model r).
Proof. reflexivity. Qed.

Lemma list_no_password {A} (f : A -> value) (l : list A) :
  (forall a, no_password (f a)) -> no_password (VList (map f l)).
Proof.
  intros Hf. unfold no_password. simpl.
  induction l as [|a l IH]; simpl; [reflexivity|].
  now rewrite (Hf a), IH.
Qed.

Ltac ensures_tac :=
  repeat first
    [ apply ensures_raise
    | apply ensures_ret; reflexivity
    | apply ensures_bind; intro
    | match goal with
      | |- ensures (if ?b then _ else _) _ => destruct b
      | |- ensures (match ?o with Some _ => _ | None => _ end) _ =>
          destruct o as [[? ?]|]
      end ].

(** No response of either variant carries a ["password"] field. *)
Lemma main_handle_no_password (op : MainService.operation) :
  ensures (MainService.handle op) no_password.
Proof.
  destruct op; simpl; apply ensures_respond.
  - apply ensures_ret. reflexivity.
  - apply ensures_ret. reflexivity.
  - unfold Main.get_status. ensures_tac.
  - apply ensures_any, main_user_response_no_password.
  - apply ensures_any. intros l.
    apply list_no_password, main_user_response_no_password.
  - apply ensures_any, main_user_response_no_password.
  - unfold Main.login. ensures_tac.
  - unfold Main.refresh_token. ensures_tac.
  - unfold Main.get_profile. ensures_tac.
Qed.

Lemma sample_handle_no_password (op : SampleService.operation) :
  ensures (SampleService.handle op) no_password.
Proof.
  destruct op; simpl; apply ensures_respond.
  - apply ensures_ret. reflexivity.
  - apply ensures_ret. reflexivity.
  - unfold Sample.get_status. ensures_tac.
  - apply ensures_any, sample_user_response_no_password.
  - apply ensures_any. intros l.
    apply list_no_password, sample_user_response_no_password.
  - apply ensures_any, sample_user_response_no_password.
  - unfold Sample.login. ensures_tac.
  - unfold Sample.refresh_token. ensures_tac.
  - unfold Sample.get_profile. ensures_tac.
Qed.

(** ** Computations that do not depend on password values *)

Lemma agree_ret {A} (a : A) : agree (ret a) (ret a).
Proof. intros w1 w2 L. now split. Qed.

Lemma agree_raise {A} (e : exn) : agree (@raise A e) (raise e).
Proof. intros w1 w2 L. now split. Qed.

Lemma agree_lift {A} (r : result A) : agree (lift r) (lift r).
Proof. intros w1 w2 L. now split. Qed.

Lemma agree_bind {A B} (m1 m2 : M A) (k1 k2 : A -> M B) :
  agree m1 m2 -> (forall a, agree (k1 a) (k2 a)) ->
  agree (bind m1 k1) (bind m2 k2).
Proof.
  intros Hm Hk w1 w2 L. unfold bind.
  destruct (Hm w1 w2 L) as [E L'].
  destruct (m1 w1) as [x1 w1'], (m2 w2) as [x2 w2']; simpl in *.
  subst x2. destruct x1 as [a|e]; [now apply Hk | now split].
Qed.

Lemma agree_datetime_now : agree datetime_now datetime_now.
Proof.
  intros w1 w2 (Hdb & Hc & Hn). unfold datetime_now, low_eq. simpl.
  rewrite Hc, Hn. auto.
Qed.

Lemma agree_getattr {T} `{BaseModel T} (o : T) (a : string) :
  agree (getattr o a) (getattr o a).
Proof.
  unfold getattr.
  destruct (dict_get a (model_attrs o)); [apply agree_ret | apply agree_raise].
Qed.

(** The store itself may differ, in password values only. *)
Lemma agree_read_db {B} (k1 k2 : store -> M B) :
  (forall db1 db2, same_but_password db1 db2 = true ->
     agree (k1 db1) (k2 db2)) ->
  agree (bind read_db k1) (bind read_db k2).
Proof.
  intros Hk w1 w2 L. unfold bind, read_db.
  apply Hk; [apply L | exact L].
Qed.

(** So may a record taken from it. *)
Lemma agree_subscript_store {B} (db1 db2 : store) (id : string)
  (k1 k2 : record -> M B) :
  same_but_password db1 db2 = true ->
  (forall r1 r2, record_same_but_password r1 r2 = true ->
     agree (k1 r1) (k2 r2)) ->
  agree (bind (subscript db1 id) k1) (bind (subscript db2 id) k2).
Proof.
  intros H Hk w1 w2 L. unfold bind, subscript.
  pose proof (@same_but_password_get db1 db2 id H) as G.
  destruct (dict_get id db1) as [r1|], (dict_get id db2) as [r2|];
    simpl in G; try contradiction; simpl.
  - now apply Hk.
  - now split.
Qed.

(** A field other than the password is the same in both. *)
Lemma agree_subscript_record (r1 r2 : record) (k : string) :
  record_same_but_password r1 r2 = true ->
  k <> "password" ->
  agree (subscript r1 k) (subscript r2 k).
Proof.
  intros H Hk. unfold subscript.
  rewrite (@record_same_but_password_get r1 r2 k H Hk).
  destruct (dict_get k r2); [apply agree_ret | apply agree_raise].
Qed.

Lemma agree_comprehension {A B} (R : A -> A -> Prop) (f : A -> M B)
  (l1 l2 : list A) :
  (forall a1 a2, R a1 a2 -> agree (f a1) (f a2)) ->
  Forall2 R l1 l2 ->
  agree (comprehension f l1) (comprehension f l2).
Proof.
  intros Hf HR. induction HR as [|a1 a2 l1 l2 Ha HR IH]; simpl.
  - apply agree_ret.
  - apply agree_bind; [now apply Hf | intros b].
    apply agree_bind; [exact IH | intros bs]. apply agree_ret.
Qed.

Lemma agree_respond {A} (f : A -> value) (m1 m2 : M A) :
  agree m1 m2 -> agree (respond f m1) (respond f m2).
Proof.
  intros Hm w1 w2 L. unfold respond. simpl.
  destruct (Hm w1 w2 L) as [E L']. now rewrite E.
Qed.

(** Reads the fields of a record pair one after the other. *)
Ltac agree_fields :=
  repeat (apply agree_bind;
          [ apply agree_subscript_record; [assumption | discriminate]
          | intro ]).

Lemma main_user_response_of_agree (r1 r2 : record) :
  record_same_but_password r1 r2 = true ->
  agree (Main.user_response_of r1) (Main.user_response_of r2).
Proof.
  intros H. unfold Main.user_response_of. agree_fields. apply agree_lift.
Qed.

Lemma sample_user_response_of_agree (r1 r2 : record) :
  record_same_but_password r1 r2 = true ->
  agree (Sample.user_response_of r1) (Sample.user_response_of r2).
Proof.
  intros H. unfold Sample.user_response_of. agree_fields. apply agree_lift.
Qed.

(** Every operation of main.py other than login gives the same answer on
    worlds that differ only in stored password values. *)
Lemma main_handle_agree (op : MainService.operation) :
  MainService.is_login op = false ->
  agree (MainService.handle op) (MainService.handle op).
Proof.
  intros Hop.
  destruct op; try discriminate Hop; simpl; apply agree_respond.
  - apply agree_ret.
  - apply agree_ret.
  - (* status *)
    unfold Main.get_status.
    apply agree_bind; [apply agree_datetime_now | intros now].
    apply agree_read_db. intros db1 db2 H.
    rewrite (@same_but_password_len db1 db2 H). apply agree_ret.
  - (* get user *)
    unfold Main.get_user. apply agree_read_db. intros db1 db2 H.
    rewrite (@same_but_password_in db1 db2 user_id H).
    destruct (dict_in user_id db2); simpl; [|apply agree_raise].
    apply agree_subscript_store; [exact H|].
    apply main_user_response_of_agree.
  - (* list users *)
    unfold Main.list_users. apply agree_read_db. intros db1 db2 H.
    apply agree_comprehension
      with (R := fun r1 r2 => record_same_but_password r1 r2 = true).
    + apply main_user_response_of_agree.
    + now apply same_but_password_values.
  - (* create user *)
    intros w1 w2 L. rewrite !main_create_user_raises. now split.
  - (* refresh token *)
    unfold Main.refresh_token.
    apply agree_bind; [apply agree_getattr | intros s].
    destruct (startswith _ "refresh_"); simpl; [|apply agree_raise].
    apply agree_bind; [apply agree_datetime_now | intros now1].
    apply agree_bind; [apply agree_datetime_now | intros now2].
    apply agree_ret.
  - (* get profile *)
    unfold Main.get_profile.
    destruct (startswith token "token_"); simpl; [|apply agree_raise].
    apply agree_read_db. intros db1 db2 H.
    apply agree_subscript_store; [exact H|]. intros r1 r2 G.
    agree_fields.
    apply agree_bind; [apply agree_datetime_now | intros now].
    apply agree_ret.
Qed.

(** Every operation of sample_fastapi.py other than login gives the same answer on
    worlds that differ only in stored password values. *)
Lemma sample_handle_agree (op : SampleService.operation) :
  SampleService.is_login op = false ->
  agree (SampleService.handle op) (SampleService.handle op).
Proof.
  intros Hop.
  destruct op; try discriminate Hop; simpl; apply agree_respond.
  - apply agree_ret.
  - apply agree_ret.
  - (* status *)
    unfold Sample.get_status.
    apply agree_bind; [apply agree_datetime_now | intros now].
    apply agree_read_db. intros db1 db2 H.
    rewrite (@same_but_password_len db1 db2 H). apply agree_ret.
  - (* get user *)
    unfold Sample.get_user. apply agree_read_db. intros db1 db2 H.
    rewrite (@same_but_password_in db1 db2 user_id H).
    destruct (dict_in user_id db2); simpl; [|apply agree_raise].
    apply agree_subscript_store; [exact H|].
    apply sample_user_response_of_agree.
  - (* list users *)
    unfold Sample.list_users. apply agree_read_db. intros db1 db2 H.
    apply agree_comprehension
      with (R := fun r1 r2 => record_same_but_password r1 r2 = true).
    + apply sample_user_response_of_agree.
    + now apply same_but_password_values.
  - (* create user *)
    intros w1 w2 L. rewrite !sample_create_user_raises. now split.
  - (* refresh token *)
    unfold Sample.refresh_token.
    destruct (startswith _ "refresh_"); simpl; [|apply agree_raise].
    apply agree_bind; [apply agree_datetime_now | intros now1].
    apply agree_bind; [apply agree_datetime_now | intros now2].
    apply agree_ret.
  - (* get profile *)
    unfold Sample.get_profile.
    destruct (startswith token "token_"); simpl; [|apply agree_raise].
    apply agree_read_db. intros db1 db2 H.
    apply agree_subscript_store; [exact H|]. intros r1 r2 G.
    agree_fields.
    apply agree_bind; [apply agree_datetime_now | intros now].
    apply agree_ret.
Qed.

(** [login] does not depend on stored password values either: it stops at
    the contact lookup of the first record. *)
Lemma login_agree (rm : Main.LoginRequest) (rs : Sample.LoginRequest) :
  agree (Main.login rm) (Main.login rm)
  /\ agree (Sample.login rs) (Sample.login rs).
Proof.
  split; intros w1 w2 L.
  - rewrite !main_login_outcome. simpl. split; [|exact L].
    destruct L as (H & _).
    destruct (fake_users_db w1) as [|[i1 r1] d1],
             (fake_users_db w2) as [|[i2 r2] d2];
      simpl in H; try discriminate; [reflexivity|].
    apply andb_prop in H as [H _]. apply andb_prop in H as [_ H].
    now rewrite (@record_same_but_password_get r1 r2 "gmail" H).
  - rewrite !sample_login_outcome. simpl. split; [|exact L].
    destruct L as (H & _).
    destruct (fake_users_db w1) as [|[i1 r1] d1],
             (fake_users_db w2) as [|[i2 r2] d2];
      simpl in H; try discriminate; [reflexivity|].
    apply andb_prop in H as [H _]. apply andb_prop in H as [_ H].
    now rewrite (@record_same_but_password_get r1 r2 "email" H).
Qed.

(** C9: in both variants, on any two worlds whose stores differ only in the
    stored password values (same ids and fields, same clock), every
    operation - get-user, list-users, get-profile and create-user among them,
    and login too - gives one and the same answer, and no value an operation
    returns has a ["password"] field.  For login this is within what the
    claim allows it (a difference between success and 401) and stronger: its
    answer, status and detail included, is the same on both worlds. *)
Theorem responses_do_not_depend_on_passwords
  (om : MainService.operation) (os : SampleService.operation)
  (rm : Main.LoginRequest) (rs : Sample.LoginRequest)
  (w1 w2 : World) :
  same_but_password (fake_users_db w1) (fake_users_db w2) = true ->
  wall_clock w1 = wall_clock w2 ->
  clock_reads w1 = clock_reads w2 ->
  fst (MainService.handle om w1) = fst (MainService.handle om w2)
  /\ fst (SampleService.handle os w1) = fst (SampleService.handle os w2)
  /\ (forall v, fst (MainService.handle om w1) = Ok v ->
                has_field "password" v = false)
  /\ (forall v, fst (SampleService.handle os w1) = Ok v ->
                has_field "password" v = false)
  /\ fst (Main.login rm w1) = fst (Main.login rm w2)
  /\ fst (Sample.login rs w1) = fst (Sample.login rs w2)
  /\ fst (MainService.handle (MainService.Login rm) w1)
     = fst (MainService.handle (MainService.Login rm) w2)
  /\ fst (SampleService.handle (SampleService.Login rs) w1)
     = fst (SampleService.handle (SampleService.Login rs) w2).
Proof.
  intros H Hc Hn.
  assert (L : low_eq w1 w2) by (repeat split; assumption).
  assert (Lm : forall r,
             agree (MainService.handle (MainService.Login r))
                   (MainService.handle (MainService.Login r))).
  { intros r. simpl. apply agree_respond.
    exact (proj1 (login_agree r rs)). }
  assert (Ls : forall r,
             agree (SampleService.handle (SampleService.Login r))
                   (SampleService.handle (SampleService.Login r))).
  { intros r. simpl. apply agree_respond.
    exact (proj2 (login_agree rm r)). }
  repeat split.
  - destruct (MainService.is_login om) eqn:E.
    + destruct om; try discriminate E. now apply Lm.
    + now apply main_handle_agree.
  - destruct (SampleService.is_login os) eqn:E.
    + destruct os; try discriminate E. now apply Ls.
    + now apply sample_handle_agree.
  - intros v. apply main_handle_no_password.
  - intros v. apply sample_handle_no_password.
  - now apply (proj1 (login_agree rm rs)).
  - now apply (proj2 (login_agree rm rs)).
  - now apply Lm.
  - now apply Ls.
Qed.

Lemma responses_do_not_depend_on_passwords_witness :
  let clock := fun _ : nat => mkDatetime "2025-01-01T00:00:00" "1735689600.5" in
  let w1 := SampleService.initial clock in
  let w2 :=
    mkWorld
      [("user1",
        [("id", "user1"); ("email", "john@example.com");
         ("name", "John Doe"); ("mobile", "+1-234-567-8900");
         ("password", "another password");
         ("created_at", "2024-01-01T10:00:00Z")]);
       ("user2",
        [("id", "user2"); ("email", "jane@example.com");
         ("name", "Jane Smith"); ("mobile", "+1-987-654-3210");
         ("password", "yet another");
         ("created_at", "2024-01-02T10:00:00Z")])] clock 0 in
  fst (MainService.handle (MainService.GetProfile "token_x") w1)
  = fst (MainService.handle (MainService.GetProfile "token_x") w2)
  /\ fst (SampleService.handle SampleService.ListUsers w1)
     = fst (SampleService.handle SampleService.ListUsers w2)
  /\ is_ok (fst (SampleService.handle SampleService.ListUsers w1)) = true
  /\ fst (Sample.login (Sample.mkLoginRequest "another password") w1)
     = fst (Sample.login (Sample.mkLoginRequest "another password") w2).
Proof.
  intros clock w1 w2.
  pose proof (@responses_do_not_depend_on_passwords
                (MainService.GetProfile "token_x") SampleService.ListUsers
                (Main.mkLoginRequest "john@example.com" "another password")
                (Sample.mkLoginRequest "another password")
                w1 w2 eq_refl eq_refl eq_refl) as H.
  split; [exact (proj1 H)|]. split; [exact (proj1 (proj2 H))|].
  split; [reflexivity|].
  exact (proj1 (proj2 (proj2 (proj2 (proj2 (proj2 H)))))).
Defined.

(** ** The two token kinds *)

Lemma startswith_inv (s p : string) :
  startswith s p = true -> exists rest, s = p ++ rest.
Proof.
  revert s. induction p as [|c p IH]; intros s; simpl.
  - intros _. now exists s.
  - destruct s as [|d s]; [discriminate|].
    intros H. apply andb_prop in H as [Hc Hp].
    apply Ascii.eqb_eq in Hc. subst d.
    destruct (IH s Hp) as [rest ->]. now exists rest.
Qed.

Lemma get_profile_accepts (rest : string) :
  accepted_by_get_profile ("token_" ++ rest).
Proof.
  intros w. split.
  - intros E. now apply main_get_profile_401_iff in E.
  - intros E. now apply sample_get_profile_401_iff in E.
Qed.

Lemma get_profile_rejects (t : string) :
  startswith t "token_" = false -> rejected_by_get_profile t.
Proof.
  intros H w. split.
  - now apply main_get_profile_401_iff.
  - now apply sample_get_profile_401_iff.
Qed.

Lemma refresh_token_accepts (rest : string) :
  accepted_by_refresh_token ("refresh_" ++ rest).
Proof. intros w. split; reflexivity. Qed.

Lemma refresh_token_rejects (t : string) :
  startswith t "refresh_" = false -> rejected_by_refresh_token t.
Proof.
  intros H w.
  unfold Main.refresh_token, Sample.refresh_token, bind, getattr.
  cbn -[startswith]. rewrite H. split; reflexivity.
Qed.

Lemma access_token_prefix (t : string) :
  startswith t "token_jwt_" = true -> access_token_ok t.
Proof.
  intros H. destruct (startswith_inv _ _ H) as [rest ->].
  repeat split; try reflexivity.
  - apply (get_profile_accepts ("jwt_" ++ rest)).
  - apply (get_profile_accepts ("jwt_" ++ rest)).
Qed.

Lemma refresh_token_prefix (t : string) :
  startswith t "refresh_" = true -> refresh_token_ok t.
Proof.
  intros H. destruct (startswith_inv _ _ H) as [rest ->].
  repeat split; reflexivity.
Qed.


(** X16: the two tokens refresh-token issues fit one endpoint each, in both
    variants: for every request string with the ["refresh_"] prefix and every
    world, the answer carries an access token that starts with
    ["token_jwt_"], which get-profile never answers with 401 and
    refresh-token always answers with 401, and a refresh token that starts
    with ["refresh_"], which refresh-token answers with 200 and get-profile
    with 401. *)
Theorem refresh_token_issues_one_token_per_endpoint (s : string) (w : World) :
  startswith s "refresh_" = true ->
  exists t r,
    fst (Main.refresh_token (Main.mkRefreshTokenRequest s) w)
    = Ok [("token", VStr t); ("refreshToken", VStr r);
          ("expiresIn", VInt 3600)]
    /\ fst (Sample.refresh_token s w)
       = Ok [("token", VStr t); ("refreshToken", VStr r);
             ("expiresIn", VInt 3600)]
    /\ access_token_ok t
    /\ refresh_token_ok r.
Proof.
  intros Hs.
  exists ("token_jwt_refreshed_" ++ timestamp (wall_clock w (clock_reads w))),
         ("refresh_refreshed_"
          ++ timestamp (wall_clock w (S (clock_reads w)))).
  unfold Main.refresh_token, Sample.refresh_token, bind, getattr.
  cbn -[startswith]. rewrite Hs. cbn.
  split; [reflexivity|]. split; [reflexivity|].
  split; [now apply access_token_prefix | now apply refresh_token_prefix].
Qed.

Lemma refresh_token_issues_one_token_per_endpoint_witness :
  let w := SampleService.initial
             (fun _ => mkDatetime "2025-01-01T00:00:00" "1735689600.5") in
  exists t r,
    fst (Main.refresh_token
           (Main.mkRefreshTokenRequest "refresh_never_issued") w)
    = Ok [("token", VStr t); ("refreshToken", VStr r);
          ("expiresIn", VInt 3600)]
    /\ fst (Sample.refresh_token "refresh_never_issued" w)
       = Ok [("token", VStr t); ("refreshToken", VStr r);
             ("expiresIn", VInt 3600)]
    /\ access_token_ok t
    /\ refresh_token_ok r.
Proof.
  intros w.
  exact (@refresh_token_issues_one_token_per_endpoint
           "refresh_never_issued" w eq_refl).
Defined.

(** * Further properties of the handlers *)

(** ** Rules for effects *)

Lemma effect_free_ret {A} (a : A) : effect_free (ret a).
Proof. now intros w. Qed.

Lemma effect_free_raise {A} (e : exn) : effect_free (@raise A e).
Proof. now intros w. Qed.

Lemma effect_free_lift {A} (r : result A) : effect_free (lift r).
Proof. now intros w. Qed.

Lemma effect_free_read_db : effect_free read_db.
Proof. now intros w. Qed.

Lemma effect_free_subscript {V} (d : dict V) (k : string) :
  effect_free (subscript d k).
Proof.
  unfold subscript.
  destruct (dict_get k d); [apply effect_free_ret | apply effect_free_raise].
Qed.

Lemma effect_free_getattr {T} `{BaseModel T} (o : T) (a : string) :
  effect_free (getattr o a).
Proof.
  unfold getattr.
  destruct (dict_get a (model_attrs o));
    [apply effect_free_ret | apply effect_free_raise].
Qed.

Lemma effect_free_bind {A B} (m : M A) (k : A -> M B) :
  effect_free m -> (forall a, effect_free (k a)) -> effect_free (bind m k).
Proof.
  intros Hm Hk w. unfold bind. specialize (Hm w).
  destruct (m w) as [[a|e] w']; simpl in *; subst w'; [apply Hk | reflexivity].
Qed.

Lemma effect_free_comprehension {A B} (f : A -> M B) (l : list A) :
  (forall a, effect_free (f a)) -> effect_free (comprehension f l).
Proof.
  intros Hf. induction l as [|a l IH]; simpl.
  - apply effect_free_ret.
  - apply effect_free_bind; [apply Hf | intros b].
    apply effect_free_bind; [exact IH | intros bs]. apply effect_free_ret.
Qed.

Lemma effect_free_respond {A} (f : A -> value) (m : M A) :
  effect_free m -> effect_free (respond f m).
Proof. intros Hm w. exact (Hm w). Qed.

Lemma never_raises_ret {A} (a : A) : never_raises (ret a).
Proof. now intros w. Qed.

Lemma never_raises_datetime_now : never_raises datetime_now.
Proof. now intros w. Qed.

Lemma never_raises_read_db : never_raises read_db.
Proof. now intros w. Qed.

Lemma never_raises_bind {A B} (m : M A) (k : A -> M B) :
  never_raises m -> (forall a, never_raises (k a)) -> never_raises (bind m k).
Proof.
  intros Hm Hk w. unfold bind. specialize (Hm w).
  destruct (m w) as [[a|e] w']; simpl in *; [apply Hk | discriminate].
Qed.

Lemma fails_clean_effect_free {A} (m : M A) : effect_free m -> fails_clean m.
Proof. intros H w e _. apply H. Qed.

Lemma fails_clean_never_raises {A} (m : M A) : never_raises m -> fails_clean m.
Proof.
  intros H w e E. specialize (H w). rewrite E in H. discriminate.
Qed.

Lemma fails_clean_bind {A B} (m : M A) (k : A -> M B) :
  effect_free m -> (forall a, fails_clean (k a)) -> fails_clean (bind m k).
Proof.
  intros Hm Hk w e. unfold bind. specialize (Hm w).
  destruct (m w) as [[a|e'] w']; simpl in *; subst w'.
  - apply Hk.
  - reflexivity.
Qed.

Lemma fails_clean_respond {A} (f : A -> value) (m : M A) :
  fails_clean m -> fails_clean (respond f m).
Proof.
  intros Hm w e. unfold respond. simpl. specialize (Hm w).
  destruct (fst (m w)) as [a|e']; simpl; [discriminate|].
  intros _. now apply (Hm e').
Qed.

Create HintDb effects.
#[export] Hint Resolve effect_free_ret effect_free_raise effect_free_lift
  effect_free_read_db effect_free_subscript effect_free_comprehension
  never_raises_ret never_raises_datetime_now never_raises_read_db : effects.
#[export] Hint Extern 1 (effect_free (getattr _ _)) =>
  apply effect_free_getattr : effects.
#[export] Hint Extern 2 (effect_free (bind _ _)) =>
  apply effect_free_bind; [|intro] : effects.
#[export] Hint Extern 2 (never_raises (bind _ _)) =>
  apply never_raises_bind; [|intro] : effects.
#[export] Hint Extern 3 (effect_free (if ?b then _ else _)) =>
  destruct b : effects.

Lemma main_user_response_of_effect_free (u : record) :
  effect_free (Main.user_response_of u).
Proof. unfold Main.user_response_of. auto 30 with effects. Qed.

Lemma sample_user_response_of_effect_free (u : record) :
  effect_free (Sample.user_response_of u).
Proof. unfold Sample.user_response_of. auto 30 with effects. Qed.

Lemma main_get_user_effect_free (user_id : string) :
  effect_free (Main.get_user user_id).
Proof.
  unfold Main.get_user. pose proof main_user_response_of_effect_free.
  auto 30 with effects.
Qed.

Lemma sample_get_user_effect_free (user_id : string) :
  effect_free (Sample.get_user user_id).
Proof.
  unfold Sample.get_user. pose proof sample_user_response_of_effect_free.
  auto 30 with effects.
Qed.

Lemma main_list_users_effect_free : effect_free Main.list_users.
Proof.
  unfold Main.list_users. pose proof main_user_response_of_effect_free.
  auto 30 with effects.
Qed.

Lemma sample_list_users_effect_free : effect_free Sample.list_users.
Proof.
  unfold Sample.list_users. pose proof sample_user_response_of_effect_free.
  auto 30 with effects.
Qed.

Lemma main_handle_fails_clean (op : MainService.operation) :
  fails_clean (MainService.handle op).
Proof.
  destruct op; simpl; apply fails_clean_respond.
  - apply fails_clean_effect_free, effect_free_ret.
  - apply fails_clean_effect_free, effect_free_ret.
  - apply fails_clean_never_raises. unfold Main.get_status.
    auto 10 with effects.
  - apply fails_clean_effect_free, main_get_user_effect_free.
  - apply fails_clean_effect_free, main_list_users_effect_free.
  - intros w e _. now rewrite main_create_user_raises.
  - intros w e _. now rewrite main_login_outcome.
  - unfold Main.refresh_token.
    apply fails_clean_bind; [apply effect_free_getattr | intros s].
    destruct (startswith _ "refresh_"); simpl.
    + apply fails_clean_never_raises. auto 10 with effects.
    + apply fails_clean_effect_free, effect_free_raise.
  - unfold Main.get_profile.
    destruct (startswith token "token_"); simpl;
      [|apply fails_clean_effect_free, effect_free_raise].
    repeat (apply fails_clean_bind;
            [first [apply effect_free_read_db | apply effect_free_subscript]
            | intro]).
    apply fails_clean_never_raises. auto 10 with effects.
Qed.

Lemma sample_handle_fails_clean (op : SampleService.operation) :
  fails_clean (SampleService.handle op).
Proof.
  destruct op; simpl; apply fails_clean_respond.
  - apply fails_clean_effect_free, effect_free_ret.
  - apply fails_clean_effect_free, effect_free_ret.
  - apply fails_clean_never_raises. unfold Sample.get_status.
    auto 10 with effects.
  - apply fails_clean_effect_free, sample_get_user_effect_free.
  - apply fails_clean_effect_free, sample_list_users_effect_free.
  - intros w e _. now rewrite sample_create_user_raises.
  - intros w e _. now rewrite sample_login_outcome.
  - unfold Sample.refresh_token.
    destruct (startswith _ "refresh_"); simpl.
    + apply fails_clean_never_raises. auto 10 with effects.
    + apply fails_clean_effect_free, effect_free_raise.
  - unfold Sample.get_profile.
    destruct (startswith token "token_"); simpl;
      [|apply fails_clean_effect_free, effect_free_raise].
    repeat (apply fails_clean_bind;
            [first [apply effect_free_read_db | apply effect_free_subscript]
            | intro]).
    apply fails_clean_never_raises. auto 10 with effects.
Qed.

(** X1: in both variants and in every world, [get_user] answers 404 exactly
    when the id is not a key of the store: a stored id may still end in 500,
    never in 404, and an absent id never ends in anything else. *)
Theorem get_user_404_exactly_when_absent (user_id : string) (w : World) :
  (status_of (fst (Main.get_user user_id w)) = 404
   <-> dict_in user_id (fake_users_db w) = false)
  /\ (status_of (fst (Sample.get_user user_id w)) = 404
      <-> dict_in user_id (fake_users_db w) = false).
Proof.
  split; [apply main_get_user_404_iff | apply sample_get_user_404_iff].
Qed.

(** X2: a request that ends in an exception has changed nothing: whatever
    the operation and the world, in both variants, when the handler raises
    the store and the clock are exactly as before the request. *)
Theorem failed_requests_change_nothing
  (om : MainService.operation) (os : SampleService.operation)
  (w : World) (e : exn) :
  (fst (MainService.handle om w) = Raise e ->
   snd (MainService.handle om w) = w)
  /\ (fst (SampleService.handle os w) = Raise e ->
      snd (SampleService.handle os w) = w).
Proof.
  split; [apply main_handle_fails_clean | apply sample_handle_fails_clean].
Qed.

Lemma failed_requests_change_nothing_witness :
  let w := MainService.initial
             (fun _ => mkDatetime "2025-01-01T00:00:00" "1735689600.5") in
  snd (MainService.handle (MainService.GetProfile "token_x") w) = w
  /\ snd (SampleService.handle (SampleService.RefreshToken "token_x") w) = w.
Proof.
  intros w. split.
  - exact (proj1 (@failed_requests_change_nothing
                    (MainService.GetProfile "token_x") SampleService.Root
                    w (KeyError "gmail")) eq_refl).
  - exact (proj2 (@failed_requests_change_nothing
                    MainService.Root (SampleService.RefreshToken "token_x")
                    w (HTTPException 401 "Invalid refresh token")) eq_refl).
Defined.

Lemma main_handle_effect_free (op : MainService.operation) :
  main_reads_no_clock op = true -> effect_free (MainService.handle op).
Proof.
  destruct op; try discriminate; intros _; simpl; apply effect_free_respond.
  - apply effect_free_ret.
  - apply effect_free_ret.
  - apply main_get_user_effect_free.
  - apply main_list_users_effect_free.
  - intros w. now rewrite main_create_user_raises.
  - intros w. now rewrite main_login_outcome.
Qed.

Lemma sample_handle_effect_free (op : SampleService.operation) :
  sample_reads_no_clock op = true -> effect_free (SampleService.handle op).
Proof.
  destruct op; try discriminate; intros _; simpl; apply effect_free_respond.
  - apply effect_free_ret.
  - apply effect_free_ret.
  - apply sample_get_user_effect_free.
  - apply sample_list_users_effect_free.
  - intros w. now rewrite sample_create_user_raises.
  - intros w. now rewrite sample_login_outcome.
Qed.

(** X3: root, health, get-user, list-users, create-user and login leave the
    whole world as it was, store and clock, in both variants; so the same
    request sent again right after is given the same answer. *)
Theorem clockless_operations_are_repeatable
  (om : MainService.operation) (os : SampleService.operation) (w : World) :
  main_reads_no_clock om = true ->
  sample_reads_no_clock os = true ->
  snd (MainService.handle om w) = w
  /\ snd (SampleService.handle os w) = w
  /\ MainService.handle om (snd (MainService.handle om w))
     = MainService.handle om w
  /\ SampleService.handle os (snd (SampleService.handle os w))
     = SampleService.handle os w.
Proof.
  intros Hm Hs.
  pose proof (@main_handle_effect_free om Hm w) as Em.
  pose proof (@sample_handle_effect_free os Hs w) as Es.
  rewrite Em, Es. auto.
Qed.

Lemma clockless_operations_are_repeatable_witness :
  let w := SampleService.initial
             (fun _ => mkDatetime "2025-01-01T00:00:00" "1735689600.5") in
  snd (MainService.handle (MainService.GetUser "user1") w) = w
  /\ SampleService.handle SampleService.ListUsers
       (snd (SampleService.handle SampleService.ListUsers w))
     = SampleService.handle SampleService.ListUsers w.
Proof.
  intros w.
  pose proof (@clockless_operations_are_repeatable
                (MainService.GetUser "user1") SampleService.ListUsers w
                eq_refl eq_refl) as H.
  split; [exact (proj1 H) | exact (proj2 (proj2 (proj2 H)))].
Defined.

(** ** Mapping stored records to the wire *)

Lemma get_user_stored (user_id : string) (u : record) (w : World) :
  dict_get user_id (fake_users_db w) = Some u ->
  Main.get_user user_id w = Main.user_response_of u w
  /\ Sample.get_user user_id w = Sample.user_response_of u w.
Proof.
  intros H.
  unfold Main.get_user, Sample.get_user, bind, read_db, dict_in, subscript.
  now rewrite H.
Qed.

(** X4: sample_fastapi.py's [get_user], for an id stored with a record that
    has the keys id, email, name, mobile and created_at, returns the values
    the record holds under id, name, mobile and created_at (the record's own
    ["id"] field, not the key it was looked up by), leaves the world as it
    was, and puts neither the email nor the password on the wire. *)
Theorem sample_get_user_returns_stored_fields
  (user_id : string) (u : record) (i e n m c : string) (w : World) :
  dict_get user_id (fake_users_db w) = Some u ->
  dict_get "id" u = Some i ->
  dict_get "email" u = Some e ->
  dict_get "name" u = Some n ->
  dict_get "mobile" u = Some m ->
  dict_get "created_at" u = Some c ->
  Sample.get_user user_id w = (Ok (Sample.mkUserResponse i n m c), w)
  /\ SampleService.handle (SampleService.GetUser user_id) w
     = (Ok (VDict [("id", VStr i); ("name", VStr n); ("mobile", VStr m);
                   ("created_at", VStr c)]), w).
Proof.
  intros H Hi He Hn Hm Hc.
  assert (E : Sample.get_user user_id w
              = (Ok (Sample.mkUserResponse i n m c), w)).
  { rewrite (proj2 (@get_user_stored user_id u w H)).
    unfold Sample.user_response_of, bind, subscript.
    now rewrite Hi, He, Hn, Hm, Hc. }
  split; [exact E|].
  simpl. unfold respond. now rewrite E.
Qed.

Lemma sample_get_user_returns_stored_fields_witness :
  let w := SampleService.initial
             (fun _ => mkDatetime "2025-01-01T00:00:00" "1735689600.5") in
  Sample.get_user "user2" w
  = (Ok (Sample.mkUserResponse "user2" "Jane Smith" "+1-987-654-3210"
           "2024-01-02T10:00:00Z"), w)
  /\ SampleService.handle (SampleService.GetUser "user2") w
     = (Ok (VDict [("id", VStr "user2"); ("name", VStr "Jane Smith");
                   ("mobile", VStr "+1-987-654-3210");
                   ("created_at", VStr "2024-01-02T10:00:00Z")]), w).
Proof.
  intros w.
  exact (@sample_get_user_returns_stored_fields
           "user2" _ "user2" "jane@example.com" "Jane Smith"
           "+1-987-654-3210" "2024-01-02T10:00:00Z" w
           eq_refl eq_refl eq_refl eq_refl eq_refl eq_refl).
Defined.

(** X5: sample_fastapi.py's [get_user] on a stored id succeeds exactly when
    the record has all of id, email, name, mobile and created_at - the email
    too, although the response does not carry it - and otherwise ends in
    status 500. *)
Theorem sample_get_user_succeeds_iff_record_complete
  (user_id : string) (u : record) (w : World) :
  dict_get user_id (fake_users_db w) = Some u ->
  is_ok (fst (Sample.get_user user_id w))
  = has_keys ["id"; "email"; "name"; "mobile"; "created_at"] u
  /\ (has_keys ["id"; "email"; "name"; "mobile"; "created_at"] u = false ->
      status_of (fst (Sample.get_user user_id w)) = 500).
Proof.
  intros H. rewrite (proj2 (@get_user_stored user_id u w H)).
  unfold Sample.user_response_of, bind, subscript, has_keys, dict_in.
  simpl forallb.
  destruct (dict_get "id" u); simpl; [|now split].
  destruct (dict_get "email" u); simpl; [|now split].
  destruct (dict_get "name" u); simpl; [|now split].
  destruct (dict_get "mobile" u); simpl; [|now split].
  destruct (dict_get "created_at" u); simpl; [|now split].
  split; [reflexivity | discriminate].
Qed.

Lemma sample_get_user_succeeds_iff_record_complete_witness :
  let w := mkWorld
             [("user7", [("id", "user7"); ("name", "No Contact");
                         ("mobile", "555"); ("password", "p");
                         ("created_at", "2024-03-03T10:00:00Z")])]
             (fun _ => mkDatetime "2025-01-01T00:00:00" "1735689600.5") 0 in
  is_ok (fst (Sample.get_user "user7" w)) = false
  /\ status_of (fst (Sample.get_user "user7" w)) = 500.
Proof.
  intros w.
  pose proof (@sample_get_user_succeeds_iff_record_complete
                "user7" _ w eq_refl) as H.
  split; [exact (proj1 H) | exact (proj2 H eq_refl)].
Defined.

(** main.py never builds a [UserResponse]: the keywords it passes are id,
    gmail, name, phone and created_at, and the model requires [mobile]. *)
Lemma main_user_response_of_fails (u : record) (w : World) :
  exists e, Main.user_response_of u w = (Raise e, w)
            /\ status_of (@Raise Main.UserResponse e) = 500.
Proof.
  unfold Main.user_response_of, bind, subscript, lift.
  destruct (dict_get "id" u); simpl; [|eexists; split; reflexivity].
  destruct (dict_get "gmail" u); simpl; [|eexists; split; reflexivity].
  destruct (dict_get "name" u); simpl; [|eexists; split; reflexivity].
  destruct (dict_get "phone" u); simpl; [|eexists; split; reflexivity].
  destruct (dict_get "created_at" u); simpl; eexists; split; reflexivity.
Qed.

(** X6: whatever the store holds, main.py's [get_user] never returns a
    user: an absent id is answered with 404 and a stored one with 500,
    because the handler reads ["gmail"] and ["phone"] and passes them to a
    [UserResponse] that requires [mobile].  Its [list_users] returns only on
    the empty store, with the empty list, and ends in 500 on any other. *)
Theorem main_user_endpoints_never_return_a_user
  (user_id : string) (w : World) :
  is_ok (fst (Main.get_user user_id w)) = false
  /\ status_of (fst (Main.get_user user_id w))
     = (if dict_in user_id (fake_users_db w) then 500 else 404)
  /\ is_ok (fst (Main.list_users w)) = dict_falsy (fake_users_db w)
  /\ (fst (Main.list_users w) = Ok []
      \/ status_of (fst (Main.list_users w)) = 500).
Proof.
  assert (G : is_ok (fst (Main.get_user user_id w)) = false
              /\ status_of (fst (Main.get_user user_id w))
                 = (if dict_in user_id (fake_users_db w) then 500 else 404)).
  { destruct (dict_get user_id (fake_users_db w)) as [u|] eqn:E.
    - rewrite (proj1 (@get_user_stored user_id u w E)).
      unfold dict_in. rewrite E.
      destruct (main_user_response_of_fails u w) as (e & -> & He).
      now split.
    - unfold Main.get_user, bind, read_db, dict_in. rewrite E. now split. }
  destruct G as [G1 G2]. split; [exact G1|]. split; [exact G2|].
  unfold Main.list_users, bind, read_db.
  destruct (fake_users_db w) as [|[id u] db]; simpl.
  - split; [reflexivity | now left].
  - unfold bind.
    destruct (main_user_response_of_fails u w) as (e & -> & He).
    split; [reflexivity | right; exact He].
Qed.

Lemma sample_user_response_of_cases (u : record) (w : World) :
  (has_keys ["id"; "email"; "name"; "mobile"; "created_at"] u = true
   /\ exists r, Sample.user_response_of u w = (Ok r, w) /\ wire_of u r)
  \/ (has_keys ["id"; "email"; "name"; "mobile"; "created_at"] u = false
      /\ exists e, Sample.user_response_of u w = (Raise e, w)).
Proof.
  unfold Sample.user_response_of, bind, subscript, has_keys, dict_in, wire_of.
  simpl forallb.
  destruct (dict_get "id" u); simpl; [|right; split; eauto].
  destruct (dict_get "email" u); simpl; [|right; split; eauto].
  destruct (dict_get "name" u); simpl; [|right; split; eauto].
  destruct (dict_get "mobile" u); simpl; [|right; split; eauto].
  destruct (dict_get "created_at" u); simpl; [|right; split; eauto].
  left. split; [reflexivity|]. eexists. split; [reflexivity|]. simpl. auto.
Qed.

Lemma sample_comprehension_cases (us : list record) (w : World) :
  is_ok (fst (comprehension Sample.user_response_of us w))
  = forallb (has_keys ["id"; "email"; "name"; "mobile"; "created_at"]) us
  /\ forall l, fst (comprehension Sample.user_response_of us w) = Ok l ->
               Forall2 wire_of us l.
Proof.
  induction us as [|u us [IH1 IH2]].
  - split; [reflexivity|]. intros l E. inversion E. constructor.
  - cbn [comprehension forallb]. unfold bind at 1 3.
    destruct (sample_user_response_of_cases u w)
      as [(-> & r & -> & Hr) | (-> & e & ->)]; simpl.
    + unfold bind.
      pose proof (@effect_free_comprehension _ _ Sample.user_response_of us
                    sample_user_response_of_effect_free w) as Ew.
      destruct (comprehension Sample.user_response_of us w) as [[l'|e] w'];
        simpl in *.
      * split; [exact IH1|]. intros l E. inversion E; subst.
        constructor; [exact Hr | now apply IH2].
      * split; [exact IH1 | discriminate].
    + split; [reflexivity | discriminate].
Qed.

(** X7: sample_fastapi.py's [list_users] succeeds exactly when every stored
    record has the keys id, email, name, mobile and created_at (so always on
    the empty store, with the empty list); what it returns has one entry per
    stored record, in the order of the store, each carrying that record's id,
    name, mobile and created_at; and it leaves the world as it was. *)
Theorem sample_list_users_lists_every_record_in_order (w : World) :
  is_ok (fst (Sample.list_users w))
  = forallb (has_keys ["id"; "email"; "name"; "mobile"; "created_at"])
      (dict_values (fake_users_db w))
  /\ snd (Sample.list_users w) = w
  /\ forall l, fst (Sample.list_users w) = Ok l ->
               length l = len (fake_users_db w)
               /\ Forall2 wire_of (dict_values (fake_users_db w)) l.
Proof.
  split; [|split].
  - unfold Sample.list_users, bind, read_db.
    apply sample_comprehension_cases.
  - apply sample_list_users_effect_free.
  - unfold Sample.list_users, bind, read_db. intros l E.
    pose proof (proj2 (sample_comprehension_cases _ w) l E) as F.
    split; [|exact F].
    apply Forall2_length in F. unfold len, dict_values in *.
    now rewrite length_map in F.
Qed.

Lemma sample_list_users_lists_every_record_in_order_witness :
  let w := SampleService.initial
             (fun _ => mkDatetime "2025-01-01T00:00:00" "1735689600.5") in
  exists l, fst (Sample.list_users w) = Ok l
            /\ length l = 2
            /\ Forall2 wire_of (dict_values Sample.seed_db) l.
Proof.
  intros w. eexists. split; [reflexivity|].
  exact (proj2 (proj2 (sample_list_users_lists_every_record_in_order w))
           _ eq_refl).
Defined.

(** ** Endpoints the two variants share *)

(** X8: root, health, status and refresh-token are the same function in the
    two variants: for every input and every world they give the same answer
    and leave the same world; status always returns, with [users_count] the
    number of stored records and one clock reading taken. *)
Theorem variants_agree_on_shared_endpoints (s : string) (w : World) :
  Main.root w = Sample.root w
  /\ Main.health_check w = Sample.health_check w
  /\ Main.get_status w = Sample.get_status w
  /\ Main.refresh_token (Main.mkRefreshTokenRequest s) w
     = Sample.refresh_token s w
  /\ Sample.get_status w
     = (Ok [("status", VStr "running"); ("version", VStr "1.0.0");
            ("timestamp",
             VStr (isoformat (wall_clock w (clock_reads w)) ++ "Z"));
            ("users_count", VInt (len (fake_users_db w)))],
        mkWorld (fake_users_db w) (wall_clock w) (S (clock_reads w))).
Proof.
  repeat split.
Qed.

(** X9: the store never changes: after any sequence of operations served
    from process start, in either variant, the store is the seed store, and
    status reports two users. *)
Theorem reachable_store_is_the_seed (wm ws : World) :
  MainService.reachable wm ->
  SampleService.reachable ws ->
  fake_users_db wm = Main.seed_db
  /\ fake_users_db ws = Sample.seed_db
  /\ fst (Main.get_status wm)
     = Ok [("status", VStr "running"); ("version", VStr "1.0.0");
           ("timestamp",
            VStr (isoformat (wall_clock wm (clock_reads wm)) ++ "Z"));
           ("users_count", VInt 2)]
  /\ fst (Sample.get_status ws)
     = Ok [("status", VStr "running"); ("version", VStr "1.0.0");
           ("timestamp",
            VStr (isoformat (wall_clock ws (clock_reads ws)) ++ "Z"));
           ("users_count", VInt 2)].
Proof.
  intros Hm Hs.
  pose proof (main_reachable_seed Hm) as Em.
  pose proof (sample_reachable_seed Hs) as Es.
  repeat split; try assumption.
  - unfold Main.get_status, bind, datetime_now, read_db. simpl. now rewrite Em.
  - unfold Sample.get_status, bind, datetime_now, read_db. simpl.
    now rewrite Es.
Qed.

Lemma reachable_store_is_the_seed_witness :
  let clock := fun _ : nat => mkDatetime "2025-01-01T00:00:00" "1735689600.5" in
  let wm :=
    MainService.run
      [MainService.CreateUser (Main.mkCreateUserRequest "x@y.com" "p" "X" "555");
       MainService.Status;
       MainService.RefreshToken (Main.mkRefreshTokenRequest "refresh_x")]
      (MainService.initial clock) in
  let ws :=
    SampleService.run
      [SampleService.CreateUser (Sample.mkCreateUserRequest "p" "X" "555");
       SampleService.GetProfile "token_x"; SampleService.ListUsers]
      (SampleService.initial clock) in
  fake_users_db wm = Main.seed_db /\ fake_users_db ws = Sample.seed_db.
Proof.
  intros clock wm ws.
  assert (Hm : MainService.reachable wm)
    by (exists clock; eexists; reflexivity).
  assert (Hs : SampleService.reachable ws)
    by (exists clock; eexists; reflexivity).
  pose proof (@reachable_store_is_the_seed wm ws Hm Hs) as H.
  split; [exact (proj1 H) | exact (proj1 (proj2 H))].
Defined.

(** ** get-profile and login *)

(** X10: get-profile makes no use of the token beyond the prefix check: any
    two tokens that start with ["token_"] get the same answer and leave the
    same world, in both variants. *)
Theorem get_profile_ignores_the_token (t1 t2 : string) (w : World) :
  startswith t1 "token_" = true ->
  startswith t2 "token_" = true ->
  Main.get_profile t1 w = Main.get_profile t2 w
  /\ Sample.get_profile t1 w = Sample.get_profile t2 w.
Proof.
  intros H1 H2. unfold Main.get_profile, Sample.get_profile.
  now rewrite H1, H2.
Qed.

Lemma get_profile_ignores_the_token_witness :
  let w := SampleService.initial
             (fun _ => mkDatetime "2025-01-01T00:00:00" "1735689600.5") in
  Main.get_profile "token_jwt_user1_1.5" w
  = Main.get_profile "token_jwt_user2_2.5" w
  /\ Sample.get_profile "token_jwt_user1_1.5" w
     = Sample.get_profile "token_jwt_user2_2.5" w.
Proof.
  intros w.
  exact (@get_profile_ignores_the_token "token_jwt_user1_1.5"
           "token_jwt_user2_2.5" w eq_refl eq_refl).
Defined.

(** X11: in both variants and in every world, get-profile answers 401
    exactly when the token does not start with ["token_"]; the prefix is
    checked before the store is read, so this holds whatever the store. *)
Theorem get_profile_401_exactly_when_prefix_missing
  (token : string) (w : World) :
  (status_of (fst (Main.get_profile token w)) = 401
   <-> startswith token "token_" = false)
  /\ (status_of (fst (Sample.get_profile token w)) = 401
      <-> startswith token "token_" = false).
Proof.
  split; [apply main_get_profile_401_iff | apply sample_get_profile_401_iff].
Qed.

(** X12: get-profile depends on the record stored under ["user1"]: on a
    store without that id, a token that passes the prefix check ends in
    [KeyError] on ["user1"], status 500, the world unchanged, in both
    variants. *)
Theorem get_profile_without_user1_raises (token : string) (w : World) :
  startswith token "token_" = true ->
  dict_in "user1" (fake_users_db w) = false ->
  Main.get_profile token w = (Raise (KeyError "user1"), w)
  /\ Sample.get_profile token w = (Raise (KeyError "user1"), w).
Proof.
  intros Ht Hu. unfold dict_in in Hu.
  unfold Main.get_profile, Sample.get_profile, bind, read_db, subscript.
  rewrite Ht. simpl.
  destruct (dict_get "user1" (fake_users_db w)); [discriminate | now split].
Qed.

Lemma get_profile_without_user1_raises_witness :
  let w := mkWorld [] (fun _ => mkDatetime "2025-01-01T00:00:00" "0.5") 0 in
  Main.get_profile "token_x" w = (Raise (KeyError "user1"), w)
  /\ Sample.get_profile "token_x" w = (Raise (KeyError "user1"), w).
Proof.
  intros w.
  exact (@get_profile_without_user1_raises "token_x" w eq_refl eq_refl).
Defined.

(** X13: the outcome of login is decided by the store alone, in both
    variants: 401 on the empty store, 500 on any other, never a success; the
    credentials of the request play no part and the world is left as it
    was. *)
Theorem login_outcome_ignores_the_request
  (rm rm' : Main.LoginRequest) (rs rs' : Sample.LoginRequest) (w : World) :
  Main.login rm w = Main.login rm' w
  /\ Sample.login rs w = Sample.login rs' w
  /\ snd (Main.login rm w) = w
  /\ snd (Sample.login rs w) = w
  /\ status_of (fst (Main.login rm w))
     = (if dict_falsy (fake_users_db w) then 401 else 500)
  /\ status_of (fst (Sample.login rs w))
     = (if dict_falsy (fake_users_db w) then 401 else 500).
Proof.
  rewrite !main_login_outcome, !sample_login_outcome. simpl.
  repeat split; destruct (fake_users_db w) as [|[id u] db]; simpl;
    try reflexivity.
  - now destruct (dict_get "gmail" u).
  - now destruct (dict_get "email" u).
Qed.

(** ** What the user shape withholds *)

Lemma ensures_main_user_shape (m : M Main.UserResponse) (k : string) :
  In k ["email"; "gmail"; "mail"; "password"] ->
  ensures m (fun r => has_field k (@json_of_attrs _ Main.UserResponse_model r)
                      = false).
Proof.
  intros Hk. apply ensures_any. intros r.
  simpl in Hk. decompose [or] Hk; subst; try reflexivity; contradiction.
Qed.

Lemma ensures_sample_user_shape (m : M Sample.UserResponse) (k : string) :
  In k ["email"; "gmail"; "mail"; "password"] ->
  ensures m (fun r => has_field k
                        (@json_of_attrs _ Sample.UserResponse_model r)
                      = false).
Proof.
  intros Hk. apply ensures_any. intros r.
  simpl in Hk. decompose [or] Hk; subst; try reflexivity; contradiction.
Qed.

Lemma list_lacks_field {A} (f : A -> value) (k : string) (l : list A) :
  (forall a, has_field k (f a) = false) ->
  has_field k (VList (map f l)) = false.
Proof.
  intros Hf. simpl. induction l as [|a l IH]; simpl; [reflexivity|].
  now rewrite (Hf a), IH.
Qed.

(** X14: what get-user, list-users and create-user return goes through the
    [UserResponse] shape, which declares id, name, mobile and created_at
    only: in both variants no such response has a field named email, gmail,
    mail or password, at any depth - the contact of a user is never sent by
    these three operations. *)
Theorem user_shape_withholds_contact_and_password
  (om : MainService.operation) (os : SampleService.operation)
  (w : World) (k : string) (vm vs : value) :
  main_answers_user_shape om = true ->
  sample_answers_user_shape os = true ->
  In k ["email"; "gmail"; "mail"; "password"] ->
  (fst (MainService.handle om w) = Ok vm -> has_field k vm = false)
  /\ (fst (SampleService.handle os w) = Ok vs -> has_field k vs = false).
Proof.
  intros Hm Hs Hk. split.
  - revert w vm.
    change (ensures (MainService.handle om)
              (fun v => has_field k v = false)).
    destruct om; try discriminate Hm; simpl; apply ensures_respond.
    + now apply ensures_main_user_shape.
    + apply ensures_any. intros l. apply list_lacks_field. intros r.
      simpl in Hk. decompose [or] Hk; subst; try reflexivity; contradiction.
    + now apply ensures_main_user_shape.
  - revert w vs.
    change (ensures (SampleService.handle os)
              (fun v => has_field k v = false)).
    destruct os; try discriminate Hs; simpl; apply ensures_respond.
    + now apply ensures_sample_user_shape.
    + apply ensures_any. intros l. apply list_lacks_field. intros r.
      simpl in Hk. decompose [or] Hk; subst; try reflexivity; contradiction.
    + now apply ensures_sample_user_shape.
Qed.

Lemma user_shape_withholds_contact_and_password_witness :
  let w := SampleService.initial
             (fun _ => mkDatetime "2025-01-01T00:00:00" "1735689600.5") in
  exists v, fst (SampleService.handle SampleService.ListUsers w) = Ok v
            /\ has_field "email" v = false.
Proof.
  intros w. eexists. split; [reflexivity|].
  exact (proj2 (@user_shape_withholds_contact_and_password
                  MainService.ListUsers SampleService.ListUsers w "email"
                  (VList []) _ eq_refl eq_refl (or_introl eq_refl))
           eq_refl).
Defined.

(** X15: sample_fastapi.py's get-profile, for a token with the prefix and a
    store whose ["user1"] record has id, email, name, mobile and created_at,
    returns exactly those five values - the email included, unlike get-user
    - followed by [lastLogin], the next clock reading in ISO format with a
    ["Z"] appended; it takes one clock reading and leaves the store as it
    was. *)
Theorem sample_get_profile_returns_user1
  (token : string) (u : record) (i e n m c : string) (w : World) :
  startswith token "token_" = true ->
  dict_get "user1" (fake_users_db w) = Some u ->
  dict_get "id" u = Some i ->
  dict_get "email" u = Some e ->
  dict_get "name" u = Some n ->
  dict_get "mobile" u = Some m ->
  dict_get "created_at" u = Some c ->
  Sample.get_profile token w
  = (Ok [("id", VStr i); ("email", VStr e); ("name", VStr n);
         ("mobile", VStr m); ("created_at", VStr c);
         ("lastLogin",
          VStr (isoformat (wall_clock w (clock_reads w)) ++ "Z"))],
     mkWorld (fake_users_db w) (wall_clock w) (S (clock_reads w))).
Proof.
  intros Ht Hu Hi He Hn Hm Hc.
  unfold Sample.get_profile, bind, read_db, subscript.
  rewrite Ht. simpl. rewrite Hu. simpl.
  now rewrite Hi, He, Hn, Hm, Hc.
Qed.

Lemma sample_get_profile_returns_user1_witness :
  let w := SampleService.initial
             (fun _ => mkDatetime "2025-01-01T00:00:00" "1735689600.5") in
  Sample.get_profile "token_jwt_user2_1.5" w
  = (Ok [("id", VStr "user1"); ("email", VStr "john@example.com");
         ("name", VStr "John Doe"); ("mobile", VStr "+1-234-567-8900");
         ("created_at", VStr "2024-01-01T10:00:00Z");
         ("lastLogin", VStr "2025-01-01T00:00:00Z")],
     mkWorld Sample.seed_db
       (fun _ => mkDatetime "2025-01-01T00:00:00" "1735689600.5") 1).
Proof.
  intros w.
  exact (@sample_get_profile_returns_user1 "token_jwt_user2_1.5" _
           "user1" "john@example.com" "John Doe" "+1-234-567-8900"
           "2024-01-01T10:00:00Z" w
           eq_refl eq_refl eq_refl eq_refl eq_refl eq_refl eq_refl).
Defined.
